(** * AI call centre: session router, configuration resolver and duplex relay

    A shallow embedding of the multi-tenant server (the Express webhooks and
    the [Tw2GemServer] relay) and of [database/supabase-service.js], with the
    properties of the call session engine stated over it.

    Conventions of the embedding.
    - A JavaScript value that may be [null] or [undefined] is an [option];
      [x || d] is written with the [or_*] functions below, which follow
      JavaScript truthiness (the empty string, [0], [false], [null] and
      [undefined] are falsy).
    - Numbers are [Z]; a [NaN] or [undefined] operand is [None].
    - The module-level maps ([clientConfigCache], [callSessionStore]) and the
      database are threaded through every handler as explicit state.
    - Everything a handler sends is returned as data: the TwiML verbs of an
      HTTP reply, the calls made to the call record sink, the frames put on a
      socket. *)

From Stdlib Require Import ZArith Lia Bool List String Ascii.
From stdpp Require Import base option list strings gmap.
Import ListNotations.

Local Open Scope string_scope.
Local Open Scope Z_scope.

(** ** JavaScript idioms *)

Module Js.

(** Truthiness of a possibly absent string. *)
Definition truthy_str (x : option string) : bool :=
  match x with
  | Some s => negb (String.eqb s "")
  | None => false
  end.

(** Truthiness of a possibly absent number. *)
Definition truthy_num (x : option Z) : bool :=
  match x with
  | Some n => negb (n =? 0)
  | None => false
  end.

(** Truthiness of a possibly absent boolean. *)
Definition truthy_bool (x : option bool) : bool :=
  match x with
  | Some b => b
  | None => false
  end.

(** [x || d] on strings. *)
Definition or_str (x : option string) (d : string) : string :=
  match x with
  | Some s => if String.eqb s "" then d else s
  | None => d
  end.

(** [x || d] on numbers. *)
Definition or_num (x : option Z) (d : Z) : Z :=
  match x with
  | Some n => if n =? 0 then d else n
  | None => d
  end.

(** [x || d] on booleans. *)
Definition or_bool (x : option bool) (d : bool) : bool :=
  match x with
  | Some true => true
  | _ => d
  end.

(** [a || b] where both sides may be absent strings. *)
Definition or_opt_str (x y : option string) : option string :=
  if truthy_str x then x else y.

(** The errors the modelled code can raise. *)
Inductive Error := TypeError | RangeError.

(** [s.split(c)]. *)
Fixpoint split (c : ascii) (s : string) : list string :=
  match s with
  | EmptyString => [EmptyString]
  | String a rest =>
      if Ascii.eqb a c then EmptyString :: split c rest
      else match split c rest with
           | hd :: tl => String a hd :: tl
           | [] => [String a EmptyString]
           end
  end.

Definition digit_of (a : ascii) : option Z :=
  let n := Z.of_nat (nat_of_ascii a) in
  if (48 <=? n) && (n <=? 57) then Some (n - 48) else None.

Fixpoint digits_value (acc : Z) (s : string) : option Z :=
  match s with
  | EmptyString => Some acc
  | String a rest =>
      match digit_of a with
      | Some d => digits_value (acc * 10 + d) rest
      | None => None
      end
  end.

(** White space as [Number] strips it from both ends of a string (the
    ASCII part: tab, line feed, vertical tab, form feed, carriage return
    and space). *)
Definition is_space (a : ascii) : bool :=
  let n := Z.of_nat (nat_of_ascii a) in
  ((9 <=? n) && (n <=? 13)) || (n =? 32).

Fixpoint trim_start (s : string) : string :=
  match s with
  | EmptyString => EmptyString
  | String a rest => if is_space a then trim_start rest else s
  end.

Fixpoint trim_end (s : string) : string :=
  match s with
  | EmptyString => EmptyString
  | String a rest =>
      match trim_end rest with
      | EmptyString => if is_space a then EmptyString else String a EmptyString
      | kept => String a kept
      end
  end.

(** An optional sign in front of at least one decimal digit. *)
Definition signed_value (s : string) : option Z :=
  match s with
  | String "+" (String _ _ as ds) => digits_value 0 ds
  | String "-" (String _ _ as ds) => Z.opp <$> digits_value 0 ds
  | String "+" EmptyString | String "-" EmptyString => None
  | _ => digits_value 0 s
  end.

(** [Number(s)] on integer literals: white space around the literal is
    stripped, an empty or blank string is [0], and a run of decimal
    digits with an optional sign is its value.  [None] stands for [NaN].
    Literals with a fraction, an exponent or a radix prefix, and
    [Infinity], are outside this model: they are taken to [None] as well,
    and no statement below rests on the value of such a string. *)
Definition Number (s : string) : option Z :=
  signed_value (trim_end (trim_start s)).

(** [a >= b] and [a <= b] on numbers that may be [NaN]: any comparison
    with [NaN] is false. *)
Definition geq (a b : option Z) : bool :=
  match a, b with
  | Some x, Some y => y <=? x
  | _, _ => false
  end.

Definition leq (a b : option Z) : bool :=
  match a, b with
  | Some x, Some y => x <=? y
  | _, _ => false
  end.

(** [h * 60 + m] with [NaN] propagation. *)
Definition minutes_of (h m : option Z) : option Z :=
  match h, m with
  | Some x, Some y => Some (x * 60 + y)
  | _, _ => None
  end.

(** [Math.round(n / d)] for an integer [n] and a positive integer [d]:
    the nearest integer, halves rounded towards plus infinity. *)
Definition round_div (n d : Z) : Z := (2 * n + d) / (2 * d).

(** [Math.ceil(n / d)] for an integer [n] and a positive integer [d]. *)
Definition ceil_div (n d : Z) : Z := - ((- n) / d).

End Js.

(** ** Data model: database rows and the objects built from them *)

(** A row of [profiles]. *)
Record Profile := {
  profile_id : string;
  client_name : option string;
  full_name : option string;
  routing_strategy : option string;
  call_recording_enabled : option bool;
  transcription_enabled : option bool;
  max_concurrent_calls : option Z;
  monthly_minute_limit : option Z;
  minutes_used : option Z
}.

(** A row of [ai_agents]. *)
Record Agent := {
  agent_id : string;
  agent_profile_id : option string;
  agent_name : string;
  agent_type : string;
  voice_name : option string;
  language_code : option string;
  system_instruction : option string;
  greeting : option string;
  agent_is_active : option bool;
  business_hours_start : option string;
  business_hours_end : option string;
  business_days : option (list Z)
}.

(** A row of [phone_numbers]; [phone_agent_id] is the direct agent binding. *)
Record PhoneNumberRow := {
  phone_number : string;
  phone_profile_id : option string;
  phone_agent_id : option string;
  is_primary : option bool
}.

(** [select('*, profiles( * )')]: the row with its profile embedded. *)
Record PhoneData := {
  phone_row : PhoneNumberRow;
  profiles_of : option Profile
}.

(** A row of [ivr_options]; [action_phone_number] is
    [action_data.phone_number]. *)
Record IvrOption := {
  option_id : string;
  ivr_menu_id : option string;
  digit : string;
  option_agent_id : option string;
  action_type : string;
  action_phone_number : option string
}.

(** A row of [ivr_menus]. *)
Record IvrMenuRow := {
  menu_id : string;
  menu_profile_id : option string;
  menu_name : string;
  greeting_text : string;
  timeout_seconds : option Z;
  max_attempts : option Z;
  menu_is_active : option bool
}.

(** [select('*, ivr_options( * )')]: the menu with its options embedded. *)
Record IvrMenu := {
  menu_row : IvrMenuRow;
  ivr_options : list IvrOption
}.

(** The [configuration] JSON of an external integration. *)
Record IntegrationConfiguration := {
  sip_uri : option string;
  extension_map : option (list (string * string));
  forwarding_agent_id : option string
}.

(** A row of [external_integrations]. *)
Record Integration := {
  integration_id : string;
  integration_profile_id : option string;
  integration_type : string;
  configuration : IntegrationConfiguration;
  integration_is_active : option bool
}.

(** The object compiled by [getClientConfigByPhoneNumber].  It has no
    [timezone] property. *)
Record ClientConfig := {
  clientId : string;
  clientName : option string;
  routingStrategy : string;
  phoneNumber : PhoneData;
  allPhoneNumbers : list PhoneNumberRow;
  agents : list Agent;
  ivrMenu : option IvrMenu;
  externalIntegrations : list Integration;
  recordingEnabled : bool;
  transcriptionEnabled : bool;
  maxConcurrentCalls : Z;
  minutesLimit : Z;
  minutesUsed : Z
}.

(** [ivrContext]: the menu id is absent when the context was rebuilt from
    [{}]; [attempts] may be absent for the same reason. *)
Record IvrContext := {
  menuId : option string;
  attempts : option Z
}.

(** The session object stored per call. *)
Record CallSession := {
  clientConfig : ClientConfig;
  selectedAgent : option Agent;
  ivrContext : option IvrContext;
  callType : string;
  fromNumber : string;
  toNumber : string;
  startTime : Z
}.

(** The updates object of the finalizing write to [call_logs]. *)
Record CallLogUpdates := {
  upd_status : string;
  upd_ended_at : Z;
  upd_duration_seconds : Z;
  upd_transcript : string
}.

(** A row of [call_logs] as the relay creates it.  The generated key is
    modelled by the position of the row in the table. *)
Record CallLog := {
  log_id : Z;
  log_profile_id : string;
  log_agent_id : string;
  log_call_sid : string;
  log_from : string;
  log_to : string;
  log_direction : string;
  log_status : string;
  log_started_at : Z
}.

(** ** The database

    [call_sessions] is keyed by [call_sid], which the schema declares
    [UNIQUE]; the other tables are lists of rows in storage order.
    [db_available] is false when the service cannot be reached, in which
    case every request comes back with an error. *)
Record Database := {
  db_available : bool;
  profiles : list Profile;
  phone_numbers : list PhoneNumberRow;
  ai_agents : list Agent;
  ivr_menus : list IvrMenuRow;
  ivr_option_rows : list IvrOption;
  external_integrations : list Integration;
  call_sessions : gmap string CallSession;
  call_logs : list CallLog
}.

(** The tables a request can read. *)
Inductive Table :=
  | T_phone_numbers | T_ai_agents | T_ivr_menus | T_external_integrations.

Definition opt_str_eqb (x : option string) (s : string) : bool :=
  match x with
  | Some y => String.eqb y s
  | None => false
  end.

Definition opt_true (x : option bool) : bool :=
  match x with
  | Some true => true
  | _ => false
  end.

(** [.single()]: exactly one row, otherwise an error. *)
Definition single {A} (rows : list A) : option A :=
  match rows with
  | [r] => Some r
  | _ => None
  end.

(** ** Configuration resolver ([database/supabase-service.js]) *)

Module Resolver.

(** [CACHE_TTL], in milliseconds. *)
Definition CACHE_TTL : Z := 5 * 60 * 1000.

(** An entry of [clientConfigCache]. *)
Record CacheEntry := {
  data : ClientConfig;
  expiresAt : Z
}.

(** What one call of the resolver yields: the value returned, the cache it
    leaves, and the tables it queried, in order. *)
Record Resolved := {
  resolved : option ClientConfig;
  cache_after : gmap string CacheEntry;
  queries : list Table
}.

(** [from('phone_numbers').select('*, profiles( * )')
      .eq('phone_number', phoneNumber).single()]. *)
Definition query_phone (db : Database) (phoneNumber : string)
  : option PhoneData :=
  if db_available db then
    match single (List.filter (fun r => String.eqb (phone_number r) phoneNumber)
                              (phone_numbers db)) with
    | Some r =>
        Some {| phone_row := r;
                profiles_of :=
                  match phone_profile_id r with
                  | Some pid =>
                      List.find (fun p => String.eqb (profile_id p) pid)
                                (profiles db)
                  | None => None
                  end |}
    | None => None
    end
  else None.

(** [from('ivr_menus').select('*, ivr_options( * )')
      .eq('profile_id', id).eq('is_active', true).single()]. *)
Definition query_ivr_menu (db : Database) (pid : string) : option IvrMenu :=
  match single (List.filter
                  (fun m => opt_str_eqb (menu_profile_id m) pid
                            && opt_true (menu_is_active m))
                  (ivr_menus db)) with
  | Some m =>
      Some {| menu_row := m;
              ivr_options :=
                List.filter (fun o => opt_str_eqb (ivr_menu_id o) (menu_id m))
                            (ivr_option_rows db) |}
  | None => None
  end.

(** The body of the [try] block: the lookups against the source of truth
    and the compiled configuration.  A missing embedded profile makes
    [clientProfile.id] raise, which the [catch] turns into [null]. *)
Definition fetchClientConfig (db : Database) (phoneNumber : string)
  : option ClientConfig * list Table :=
  match query_phone db phoneNumber with
  | None => (None, [T_phone_numbers])
  | Some phoneData =>
      match profiles_of phoneData with
      | None => (None, [T_phone_numbers])
      | Some clientProfile =>
          let pid := profile_id clientProfile in
          let allPhones :=
            List.filter (fun r => opt_str_eqb (phone_profile_id r) pid)
                        (phone_numbers db) in
          let allAgents :=
            List.filter (fun a => opt_str_eqb (agent_profile_id a) pid
                                  && opt_true (agent_is_active a))
                        (ai_agents db) in
          let wantsMenu :=
            opt_str_eqb (routing_strategy clientProfile) "single_number_ivr"
            && Js.truthy_bool (is_primary (phone_row phoneData)) in
          let menu := if wantsMenu then query_ivr_menu db pid else None in
          let integrations :=
            List.filter (fun i => opt_str_eqb (integration_profile_id i) pid
                                  && opt_true (integration_is_active i))
                        (external_integrations db) in
          (Some {| clientId := pid;
                   clientName := Js.or_opt_str (client_name clientProfile)
                                               (full_name clientProfile);
                   routingStrategy :=
                     Js.or_str (routing_strategy clientProfile)
                               "single_number_ivr";
                   phoneNumber := phoneData;
                   allPhoneNumbers := allPhones;
                   agents := allAgents;
                   ivrMenu := menu;
                   externalIntegrations := integrations;
                   recordingEnabled :=
                     Js.or_bool (call_recording_enabled clientProfile) true;
                   transcriptionEnabled :=
                     Js.or_bool (transcription_enabled clientProfile) true;
                   maxConcurrentCalls :=
                     Js.or_num (max_concurrent_calls clientProfile) 5;
                   minutesLimit :=
                     Js.or_num (monthly_minute_limit clientProfile) 1000;
                   minutesUsed := Js.or_num (minutes_used clientProfile) 0 |},
           ([T_phone_numbers; T_phone_numbers; T_ai_agents]
              ++ (if wantsMenu then [T_ivr_menus] else [])
              ++ [T_external_integrations])%list)
      end
  end.

(** The path taken when the cache does not answer: query, and cache what
    was compiled. *)
Definition resolveFromSource (now : Z) (db : Database)
    (cache : gmap string CacheEntry) (phoneNumber : string) : Resolved :=
  match fetchClientConfig db phoneNumber with
  | (Some config, qs) =>
      {| resolved := Some config;
         cache_after :=
           <[phoneNumber := {| data := config; expiresAt := now + CACHE_TTL |}]>
             cache;
         queries := qs |}
  | (None, qs) =>
      {| resolved := None; cache_after := cache; queries := qs |}
  end.

(** [getClientConfigByPhoneNumber], called at instant [now]
    ([Date.now()], in milliseconds). *)
Definition getClientConfigByPhoneNumber (now : Z) (db : Database)
    (cache : gmap string CacheEntry) (phoneNumber : string) : Resolved :=
  match cache !! phoneNumber with
  | Some cachedConfig =>
      if now <? expiresAt cachedConfig
      then {| resolved := Some (data cachedConfig);
              cache_after := cache;
              queries := [] |}
      else resolveFromSource now db (delete phoneNumber cache) phoneNumber
  | None => resolveFromSource now db cache phoneNumber
  end.

(** A cache entry that answers at [now]. *)
Definition fresh (now : Z) (cache : gmap string CacheEntry)
    (phoneNumber : string) : bool :=
  match cache !! phoneNumber with
  | Some e => now <? expiresAt e
  | None => false
  end.

(** No [phone_numbers] row carries the number. *)
Definition no_row (db : Database) (phoneNumber : string) : Prop :=
  List.filter (fun r => String.eqb (phone_number r) phoneNumber)
              (phone_numbers db) = [].

(** One request to the resolver: when, against which database contents,
    for which number. *)
Record Call := {
  call_now : Z;
  call_db : Database;
  call_number : string
}.

(** The cache after a history of requests. *)
Fixpoint cache_after_calls (cache : gmap string CacheEntry)
    (history : list Call) : gmap string CacheEntry :=
  match history with
  | [] => cache
  | c :: rest =>
      cache_after_calls
        (cache_after (getClientConfigByPhoneNumber
                        (call_now c) (call_db c) cache (call_number c)))
        rest
  end.

(** Both flags are set in a configuration. *)
Definition flags_on (c : ClientConfig) : Prop :=
  recordingEnabled c = true ∧ transcriptionEnabled c = true.

(** Every cached configuration has both flags set. *)
Definition cache_flags_on (cache : gmap string CacheEntry) : Prop :=
  map_Forall (fun _ e => flags_on (data e)) cache.

(** The rows of [phone_numbers] that carry a number. *)
Definition rowsFor (db : Database) (phoneNumber : string)
  : list PhoneNumberRow :=
  List.filter (fun r => String.eqb (phone_number r) phoneNumber)
              (phone_numbers db).

(** The profile a [phone_numbers] row points to, if any. *)
Definition profileOf (db : Database) (r : PhoneNumberRow) : option Profile :=
  match phone_profile_id r with
  | Some pid => List.find (fun p => String.eqb (profile_id p) pid) (profiles db)
  | None => None
  end.

(** The cache reached from the empty cache by a history of requests. *)
Definition reachable (cache : gmap string CacheEntry) : Prop :=
  ∃ history, cache = cache_after_calls ∅ history.

End Resolver.

(** ** The runtime's date formatter, as far as the router uses it *)

Module Intl.

(** The local wall clock of one time zone at the instant of a request:
    day of week ([0] is Sunday), hour and minute. *)
Record WallClock := {
  weekday : Z;
  hour : Z;
  minute : Z
}.

Definition two_digits (n : Z) : string :=
  String (ascii_of_nat (48 + Z.to_nat (n / 10)))
    (String (ascii_of_nat (48 + Z.to_nat (n mod 10))) EmptyString).

(** [DateTimeFormat('en-US', {hour: 'numeric', minute: 'numeric',
    hour12: false}).format(now)]: the local time as [HH:MM]. *)
Definition formatHourMinute (w : WallClock) : string :=
  two_digits (hour w) +:+ ":" +:+ two_digits (minute w).

Definition long_names : list string :=
  ["Sunday"; "Monday"; "Tuesday"; "Wednesday"; "Thursday"; "Friday";
   "Saturday"].

Definition short_names : list string :=
  ["Sun"; "Mon"; "Tue"; "Wed"; "Thu"; "Fri"; "Sat"].

Definition narrow_names : list string :=
  ["S"; "M"; "T"; "W"; "T"; "F"; "S"].

(** [DateTimeFormat('en-US', {weekday: style}).format(now)].  The
    [weekday] option admits the values ["narrow"], ["short"] and ["long"];
    the constructor raises a [RangeError] on any other value, so there is
    no formatter to call. *)
Definition formatWeekday (style : string) (w : WallClock)
  : Js.Error + string :=
  let pick names := inr (nth (Z.to_nat (weekday w)) names "") in
  if String.eqb style "long" then pick long_names
  else if String.eqb style "short" then pick short_names
  else if String.eqb style "narrow" then pick narrow_names
  else inl Js.RangeError.

End Intl.

(** ** Session router (the Express webhooks) *)

Module Router.

Import Resolver.

Definition WEBSOCKET_URL : string :=
  "wss://work-2-uqgmjligulgfvwib.prod-runtime.all-hands.dev".

Definition DEFAULT_GREETING : string :=
  "Hello! I am your AI assistant. How can I help you today?".

(** The fields of a webhook request that the handlers read. *)
Record Request := {
  To : string;
  From : string;
  CallSid : string;
  Digits : option string;
  query_callSid : option string;
  query_extension : option string
}.

(** The instant of a request: [Date.now()] and the wall clock the
    runtime's time-zone data gives for each zone name. *)
Record Clock := {
  epoch_ms : Z;
  wall : string → Intl.WallClock
}.

(** The TwiML verbs the handlers emit. *)
Inductive Verb :=
  | Say (voice language : option string) (text : string)
  | RecordCall (action : string) (maxLength : Z)
  | StartStream (url : string)
  | Pause (length : Z)
  | Gather (action : string) (timeout : Z) (prompt : string)
  | Redirect (url : string)
  | Dial (number : string)
  | DialSip (uri : string).

(** What a handler produces: a TwiML document, or an exception that
    escaped it.  What the framework and the runtime make of an escaped
    exception (an error response, the end of the process) is outside the
    handlers and is not modelled. *)
Inductive Reply :=
  | Twiml (verbs : list Verb)
  | Unhandled (e : Js.Error).

(** The mutable state shared by the webhooks. *)
Record State := {
  db : Database;
  callSessionStore : gmap string CallSession;
  clientConfigCache : gmap string CacheEntry
}.

Definition with_call_sessions (d : Database)
    (m : gmap string CallSession) : Database :=
  {| db_available := db_available d;
     profiles := profiles d;
     phone_numbers := phone_numbers d;
     ai_agents := ai_agents d;
     ivr_menus := ivr_menus d;
     ivr_option_rows := ivr_option_rows d;
     external_integrations := external_integrations d;
     call_sessions := m;
     call_logs := call_logs d |}.

(** [storeCallSession]: an [insert] into [call_sessions].  The request
    fails, and is only logged, when the service is unreachable or when a
    row with this [call_sid] exists already ([call_sid] is [UNIQUE]).
    Foreign keys are not modelled, nor is the schema's trigger that
    removes the rows older than 24 hours after an accepted insert: rows
    stay for the time span of a call. *)
Definition storeCallSession (callSid : string) (sessionData : CallSession)
    (d : Database) : Database :=
  if db_available d then
    match call_sessions d !! callSid with
    | None => with_call_sessions d (<[callSid := sessionData]> (call_sessions d))
    | Some _ => d
    end
  else d.

(** [getCallSession]: the [session_data] of the row, [null] on any
    error (no row, service unreachable). *)
Definition getCallSession (callSid : string) (d : Database)
  : option CallSession :=
  if db_available d then call_sessions d !! callSid else None.

(** The lookup both IVR webhooks and the relay perform: the database
    first, the in-memory map only when the database gave nothing. *)
Definition lookupSession (callSid : string) (st : State)
  : option CallSession :=
  match getCallSession callSid (db st) with
  | Some s => Some s
  | None => callSessionStore st !! callSid
  end.

(** [await storeCallSession(callSid, s); callSessionStore.set(callSid, s)]. *)
Definition saveSession (callSid : string) (s : CallSession) (st : State)
  : State :=
  {| db := storeCallSession callSid s (db st);
     callSessionStore := <[callSid := s]> (callSessionStore st);
     clientConfigCache := clientConfigCache st |}.

Definition say (text : string) : Verb := Say None None text.

Definition streamTo (callSid : string) : Verb :=
  StartStream (WEBSOCKET_URL +:+ "?callSid=" +:+ callSid).

(** [twiml.say({voice: 'alice', language: agent.language_code || 'en-US'},
    agent.greeting || DEFAULT_GREETING)]. *)
Definition greet (a : Agent) : Verb :=
  Say (Some "alice") (Some (Js.or_str (language_code a) "en-US"))
      (Js.or_str (greeting a) DEFAULT_GREETING).

(** Stream, agent greeting, and the pause that keeps the call alive. *)
Definition connectTo (callSid : string) (a : Agent) : list Verb :=
  [streamTo callSid; greet a; Pause 60].

(** The session object built when an agent is chosen on the first
    webhook. *)
Definition sessionFor (clientConfig : ClientConfig) (a : Agent)
    (req : Request) (now : Z) : CallSession :=
  {| clientConfig := clientConfig;
     selectedAgent := Some a;
     ivrContext := None;
     callType := "inbound";
     fromNumber := From req;
     toNumber := To req;
     startTime := now |}.

(** [agents.find(a => a.id === id)]; an absent id matches nothing. *)
Definition findAgent (id : option string) (l : list Agent) : option Agent :=
  match id with
  | Some i => List.find (fun a => String.eqb (agent_id a) i) l
  | None => None
  end.

(** Fallback used by several branches: [agents[0]], stored and
    connected, or [sorry] when the tenant has no agent. *)
Definition connectDefault (sorry : string) (clock : Clock) (req : Request)
    (clientConfig : ClientConfig) (st : State) : Reply * State :=
  match agents clientConfig with
  | [] => (Twiml [say sorry], st)
  | defaultAgent :: _ =>
      (Twiml (connectTo (CallSid req) defaultAgent),
       saveSession (CallSid req)
         (sessionFor clientConfig defaultAgent req (epoch_ms clock)) st)
  end.

Definition ivrSelectionUrl (callSid : string) : string :=
  "/webhook/ivr-selection?callSid=" +:+ callSid.

Definition ivrTimeoutUrl (callSid : string) : string :=
  "/webhook/ivr-timeout?callSid=" +:+ callSid.

(** [handleIVRRouting]. *)
Definition handleIVRRouting (clock : Clock) (req : Request)
    (clientConfig : ClientConfig) (st : State) : Reply * State :=
  match ivrMenu clientConfig with
  | None =>
      connectDefault "Sorry, the menu system is not configured properly."
        clock req clientConfig st
  | Some menu =>
      let callSid := CallSid req in
      let sessionData :=
        {| clientConfig := clientConfig;
           selectedAgent := None;
           ivrContext := Some {| menuId := Some (menu_id (menu_row menu));
                                 attempts := Some 0 |};
           callType := "inbound";
           fromNumber := From req;
           toNumber := To req;
           startTime := epoch_ms clock |} in
      (Twiml [Gather (ivrSelectionUrl callSid)
                     (Js.or_num (timeout_seconds (menu_row menu)) 10)
                     (greeting_text (menu_row menu));
              Redirect (ivrTimeoutUrl callSid)],
       saveSession callSid sessionData st)
  end.

(** The map's own value for a key of the JSON object of the integration. *)
Fixpoint lookupExtension (m : list (string * string)) (k : string)
  : option string :=
  match m with
  | [] => None
  | (k', v) :: rest => if String.eqb k' k then Some v else lookupExtension rest k
  end.

(** The property names every object inherits from [Object.prototype]. *)
Definition inheritedKeys : list string :=
  ["constructor"; "__defineGetter__"; "__defineSetter__"; "hasOwnProperty";
   "__lookupGetter__"; "__lookupSetter__"; "isPrototypeOf";
   "propertyIsEnumerable"; "toString"; "valueOf"; "__proto__";
   "toLocaleString"].

(** [extensionMap[extension]] is an inherited member, which is truthy and
    is no agent id: the map has no such key of its own and the name is
    one of [Object.prototype]. *)
Definition inheritedMember (own : option string) (k : string) : bool :=
  match own with
  | Some _ => false
  | None => existsb (String.eqb k) inheritedKeys
  end.

(** Store the session for [a] and connect the call to it. *)
Definition connectAgent (clock : Clock) (req : Request)
    (clientConfig : ClientConfig) (a : Agent) (st : State) : Reply * State :=
  (Twiml (connectTo (CallSid req) a),
   saveSession (CallSid req)
     (sessionFor clientConfig a req (epoch_ms clock)) st).

(** [handleExternalIntegration]. *)
Definition handleExternalIntegration (clock : Clock) (req : Request)
    (clientConfig : ClientConfig) (st : State) : Reply * State :=
  match externalIntegrations clientConfig with
  | [] =>
      connectDefault "Sorry, external integration is not configured properly."
        clock req clientConfig st
  | integration :: _ =>
      let conf := configuration integration in
      if String.eqb (integration_type integration) "sip" then
        if Js.truthy_str (sip_uri conf)
        then (Twiml [DialSip (Js.or_str (sip_uri conf) "")], st)
        else (Twiml [say "Sorry, SIP integration is not configured properly."], st)
      else if String.eqb (integration_type integration) "extension" then
        let extension := Js.or_opt_str (Digits req) (query_extension req) in
        if negb (Js.truthy_str extension)
        then (Twiml [say "Sorry, no extension was provided."], st)
        else
          let extensionMap := default [] (extension_map conf) in
          let agentId := lookupExtension extensionMap (Js.or_str extension "") in
          if inheritedMember agentId (Js.or_str extension "")
          then (Twiml [say "Sorry, the AI agent for this extension is not available."],
                st)
          else if negb (Js.truthy_str agentId)
          then (Twiml [say "Sorry, that extension is not valid."], st)
          else
            match findAgent agentId (agents clientConfig) with
            | None =>
                (Twiml [say "Sorry, the AI agent for this extension is not available."],
                 st)
            | Some agent => connectAgent clock req clientConfig agent st
            end
      else if String.eqb (integration_type integration) "forwarding" then
        if negb (Js.truthy_str (forwarding_agent_id conf))
        then (Twiml [say "Sorry, forwarding is not configured properly."], st)
        else
          match findAgent (forwarding_agent_id conf) (agents clientConfig) with
          | None => (Twiml [say "Sorry, the AI agent is not available."], st)
          | Some agent => connectAgent clock req clientConfig agent st
          end
      else (Twiml [say "Sorry, this integration type is not supported."], st)
  end.

(** *** Time-based routing *)

(** [clientConfig.timezone || 'America/New_York']: the configuration
    object carries no [timezone], so the default always applies. *)
Definition clientTimezone (clientConfig : ClientConfig) : string :=
  Js.or_str None "America/New_York".

(** [dayMap[clientDay]]. *)
Definition dayMap (clientDay : string) : option Z :=
  if String.eqb clientDay "Sunday" then Some 0
  else if String.eqb clientDay "Monday" then Some 1
  else if String.eqb clientDay "Tuesday" then Some 2
  else if String.eqb clientDay "Wednesday" then Some 3
  else if String.eqb clientDay "Thursday" then Some 4
  else if String.eqb clientDay "Friday" then Some 5
  else if String.eqb clientDay "Saturday" then Some 6
  else None.

(** The loop over the agents: the first ["general"] agent and the last
    ["after_hours"] agent. *)
Fixpoint scanAgents (l : list Agent) (businessHoursAgent afterHoursAgent : option Agent)
  : option Agent * option Agent :=
  match l with
  | [] => (businessHoursAgent, afterHoursAgent)
  | agent :: rest =>
      if String.eqb (agent_type agent) "general" then
        scanAgents rest
          (match businessHoursAgent with
           | None => Some agent
           | Some _ => businessHoursAgent
           end)
          afterHoursAgent
      else if String.eqb (agent_type agent) "after_hours" then
        scanAgents rest businessHoursAgent (Some agent)
      else scanAgents rest businessHoursAgent afterHoursAgent
  end.

(** The two candidates after the substitutions for a missing class. *)
Definition pickAgents (l : list Agent) : option Agent * option Agent :=
  let '(b0, a0) := scanAgents l None None in
  let businessHoursAgent :=
    match b0 with
    | None => if 0 <? Z.of_nat (length l) then head l else None
    | Some _ => b0
    end in
  let afterHoursAgent :=
    match a0 with
    | None => if 0 <? Z.of_nat (length l) then businessHoursAgent else None
    | Some _ => a0
    end in
  (businessHoursAgent, afterHoursAgent).

(** [const [h, m] = s.split(':').map(Number)], then [h * 60 + m]. *)
Definition minutesOfDay (s : string) : option Z :=
  let parts := List.map Js.Number (Js.split ":"%char s) in
  Js.minutes_of (mjoin (parts !! 0%nat)) (mjoin (parts !! 1%nat)).

(** [businessHoursAgent?.business_days || [1, 2, 3, 4, 5]]; an array is
    truthy even when empty. *)
Definition businessDaysOf (businessHoursAgent : option Agent) : list Z :=
  match businessHoursAgent with
  | Some a => default [1; 2; 3; 4; 5] (business_days a)
  | None => [1; 2; 3; 4; 5]
  end.

(** [businessDays.includes(dayOfWeek)]; [undefined] is in no array of
    integers. *)
Definition includesDay (days : list Z) (dayOfWeek : option Z) : bool :=
  match dayOfWeek with
  | Some d => existsb (Z.eqb d) days
  | None => false
  end.

(** The value of [isBusinessHours] for a candidate agent, a day of week
    and a local time string. *)
Definition isBusinessHours (businessHoursAgent : option Agent)
    (dayOfWeek : option Z) (clientTime : string) : bool :=
  if includesDay (businessDaysOf businessHoursAgent) dayOfWeek then
    let businessHoursStart :=
      Js.or_str (businessHoursAgent ≫= business_hours_start) "09:00" in
    let businessHoursEnd :=
      Js.or_str (businessHoursAgent ≫= business_hours_end) "17:00" in
    let currentMinutes := minutesOfDay clientTime in
    Js.geq currentMinutes (minutesOfDay businessHoursStart)
    && Js.leq currentMinutes (minutesOfDay businessHoursEnd)
  else false.

(** The agent chosen from the formatted day and time. *)
Definition selectByTime (l : list Agent) (clientDay clientTime : string)
  : option Agent :=
  let '(businessHoursAgent, afterHoursAgent) := pickAgents l in
  if isBusinessHours businessHoursAgent (dayMap clientDay) clientTime
  then businessHoursAgent
  else afterHoursAgent.

(** The part of [handleTimeBasedRouting] that follows the two
    formatter calls. *)
Definition routeByTime (clock : Clock) (req : Request)
    (clientConfig : ClientConfig) (clientDay clientTime : string) (st : State)
  : Reply * State :=
  match selectByTime (agents clientConfig) clientDay clientTime with
  | None =>
      (Twiml [say "Sorry, no agents are available at this time. Please call back during business hours."],
       st)
  | Some selected => connectAgent clock req clientConfig selected st
  end.

(** [handleTimeBasedRouting].  The day of week is requested with
    [weekday: 'numeric']. *)
Definition handleTimeBasedRouting (clock : Clock) (req : Request)
    (clientConfig : ClientConfig) (st : State) : Reply * State :=
  let local := wall clock (clientTimezone clientConfig) in
  let clientTime := Intl.formatHourMinute local in
  match Intl.formatWeekday "numeric" local with
  | inl e => (Unhandled e, st)
  | inr clientDay => routeByTime clock req clientConfig clientDay clientTime st
  end.

(** *** The voice webhook *)

(** The direct-number branch: the dialled number is bound to an agent. *)
Definition directRoute (clock : Clock) (req : Request)
    (clientConfig : ClientConfig) (st : State) : Reply * State :=
  match findAgent (phone_agent_id (phone_row (phoneNumber clientConfig)))
                  (agents clientConfig) with
  | None => (Twiml [say "Sorry, the AI agent for this number is not available."], st)
  | Some agent =>
      let callSid := CallSid req in
      (Twiml ((if recordingEnabled clientConfig
               then [RecordCall "/webhook/recording" 14400]
               else [])
              ++ connectTo callSid agent)%list,
       saveSession callSid
         (sessionFor clientConfig agent req (epoch_ms clock)) st)
  end.

(** The [switch] on [clientConfig.routingStrategy]. *)
Definition dispatchStrategy (clock : Clock) (req : Request)
    (clientConfig : ClientConfig) (st : State) : Reply * State :=
  let strategy := routingStrategy clientConfig in
  if String.eqb strategy "single_number_ivr" then
    handleIVRRouting clock req clientConfig st
  else if String.eqb strategy "external_integration" then
    handleExternalIntegration clock req clientConfig st
  else if String.eqb strategy "time_based" then
    handleTimeBasedRouting clock req clientConfig st
  else
    connectDefault "Sorry, no AI agents are available. Please try again later."
      clock req clientConfig st.

(** [app.post('/webhook/voice')]. *)
Definition webhook_voice (clock : Clock) (req : Request) (st : State)
  : Reply * State :=
  let r := getClientConfigByPhoneNumber (epoch_ms clock) (db st)
             (clientConfigCache st) (To req) in
  let st1 := {| db := db st;
                callSessionStore := callSessionStore st;
                clientConfigCache := cache_after r |} in
  match resolved r with
  | None => (Twiml [say "Sorry, this number is not configured properly."], st1)
  | Some clientConfig =>
      if Js.truthy_str (phone_agent_id (phone_row (phoneNumber clientConfig)))
      then directRoute clock req clientConfig st1
      else dispatchStrategy clock req clientConfig st1
  end.

(** *** IVR digit submission and timeout *)

(** [{...callSession, selectedAgent: a, ivrContext: null}]. *)
Definition withSelectedAgent (s : CallSession) (a : Agent) : CallSession :=
  {| clientConfig := clientConfig s;
     selectedAgent := Some a;
     ivrContext := None;
     callType := callType s;
     fromNumber := fromNumber s;
     toNumber := toNumber s;
     startTime := startTime s |}.

(** [{...callSession, ivrContext: {...ivrContext, attempts}}]. *)
Definition withAttempts (s : CallSession) (ctx : IvrContext) (n : Z)
  : CallSession :=
  {| clientConfig := clientConfig s;
     selectedAgent := selectedAgent s;
     ivrContext := Some {| menuId := menuId ctx; attempts := Some n |};
     callType := callType s;
     fromNumber := fromNumber s;
     toNumber := toNumber s;
     startTime := startTime s |}.

(** [ivr_options.find(option => option.digit === digits)]. *)
Definition findOption (digits : option string) (l : list IvrOption)
  : option IvrOption :=
  match digits with
  | Some d => List.find (fun o => String.eqb (digit o) d) l
  | None => None
  end.

(** The branch of the selection webhook taken when no option carries
    the digit. *)
Definition invalidSelection (callSid : string) (callSession : CallSession)
    (menu : IvrMenu) (st : State) : Reply * State :=
  let ctx := default {| menuId := None; attempts := None |}
                     (ivrContext callSession) in
  let n := Js.or_num (attempts ctx) 0 + 1 in
  if Js.or_num (max_attempts (menu_row menu)) 3 <=? n then
    match agents (clientConfig callSession) with
    | [] => (Twiml [say "Sorry, no agents are available. Please try again later."], st)
    | defaultAgent :: _ =>
        (Twiml [streamTo callSid;
                say "I'll connect you with our general assistant.";
                Pause 60],
         saveSession callSid (withSelectedAgent callSession defaultAgent) st)
    end
  else
    (Twiml [Gather (ivrSelectionUrl callSid)
                   (Js.or_num (timeout_seconds (menu_row menu)) 10)
                   ("Sorry, that's not a valid option. "
                      +:+ greeting_text (menu_row menu))%string;
            Redirect (ivrTimeoutUrl callSid)],
     saveSession callSid (withAttempts callSession ctx n) st).

(** The branch taken when an option carries the digit. *)
Definition applyOption (callSid : string) (callSession : CallSession)
    (selectedOption : IvrOption) (st : State) : Reply * State :=
  if String.eqb (action_type selectedOption) "agent" then
    match findAgent (option_agent_id selectedOption)
                    (agents (clientConfig callSession)) with
    | None =>
        (Twiml [say "Sorry, the selected department is not available. Please try again later."],
         st)
    | Some selected =>
        (Twiml (connectTo callSid selected),
         saveSession callSid (withSelectedAgent callSession selected) st)
    end
  else if String.eqb (action_type selectedOption) "transfer" then
    if Js.truthy_str (action_phone_number selectedOption)
    then (Twiml [say "Transferring your call. Please hold.";
                 Dial (Js.or_str (action_phone_number selectedOption) "")],
          st)
    else (Twiml [say "Sorry, the transfer number is not configured properly."], st)
  else if String.eqb (action_type selectedOption) "voicemail" then
    (Twiml [say "Please leave a message after the tone.";
            RecordCall "/webhook/voicemail" 300],
     st)
  else (Twiml [say "Sorry, that option is not available."], st).

(** [app.post('/webhook/ivr-selection')].  Reading [ivr_options] of a
    configuration without a menu raises a [TypeError]. *)
Definition webhook_ivr_selection (req : Request) (st : State)
  : Reply * State :=
  let callSid := Js.or_str (query_callSid req) (CallSid req) in
  match lookupSession callSid st with
  | None =>
      (Twiml [say "Sorry, there was an error processing your selection. Please call back."],
       st)
  | Some callSession =>
      match ivrMenu (clientConfig callSession) with
      | None => (Unhandled Js.TypeError, st)
      | Some menu =>
          match findOption (Digits req) (ivr_options menu) with
          | None => invalidSelection callSid callSession menu st
          | Some selectedOption => applyOption callSid callSession selectedOption st
          end
      end
  end.

(** [app.get('/webhook/ivr-timeout')]. *)
Definition webhook_ivr_timeout (req : Request) (st : State)
  : Reply * State :=
  let noSession :=
    (Twiml [say "Sorry, there was an error processing your call. Please call back."],
     st) in
  match query_callSid req with
  | None => noSession
  | Some callSid =>
      match lookupSession callSid st with
      | None => noSession
      | Some callSession =>
          match agents (clientConfig callSession) with
          | [] => (Twiml [say "Sorry, no agents are available. Please try again later."], st)
          | defaultAgent :: _ =>
              (Twiml [streamTo callSid;
                      say "I'll connect you with our assistant.";
                      Pause 60],
               saveSession callSid (withSelectedAgent callSession defaultAgent) st)
          end
      end
  end.

(** *** Reading a reply *)

(** A reply connects the call: it opens the media stream for [callSid]. *)
Definition connects (callSid : string) (r : Reply) : Prop :=
  match r with
  | Twiml verbs => In (streamTo callSid) verbs
  | Unhandled _ => False
  end.

(** A reply asks for a digit with the given prompt. *)
Definition prompts (prompt : string) (r : Reply) : Prop :=
  match r with
  | Twiml verbs => ∃ action timeout, In (Gather action timeout prompt) verbs
  | Unhandled _ => False
  end.

(** The requests the router serves. *)
Inductive Operation :=
  | Voice (clock : Clock) (req : Request)
  | IvrSelection (req : Request)
  | IvrTimeout (req : Request).

Definition serve (op : Operation) (st : State) : Reply * State :=
  match op with
  | Voice clock req => webhook_voice clock req st
  | IvrSelection req => webhook_ivr_selection req st
  | IvrTimeout req => webhook_ivr_timeout req st
  end.

(** The state after a sequence of requests served by one running process,
    and the replies given.  A request whose handler raises is recorded as
    [Unhandled]; the sequence is meaningful up to the first such reply,
    since the runtime may end the process there. *)
Fixpoint serveAll (ops : list Operation) (st : State)
  : list Reply * State :=
  match ops with
  | [] => ([], st)
  | op :: rest =>
      let '(r, st1) := serve op st in
      let '(rs, st2) := serveAll rest st1 in
      (r :: rs, st2)
  end.

(** A session held for [callSid], in the in-memory map or in the
    [call_sessions] table. *)
Definition stored (st : State) (callSid : string) (s : CallSession) : Prop :=
  callSessionStore st !! callSid = Some s
  ∨ call_sessions (db st) !! callSid = Some s.

(** Two states that hold the same sessions. *)
Definition same_stores (a b : State) : Prop :=
  db a = db b ∧ callSessionStore a = callSessionStore b.

(** The shapes a request's result can take, relative to the state [st]
    it was served in: nothing is written; a session without a selected
    agent is written; a session with a selected agent and no IVR context
    is written, and only then does the reply connect the call; or a
    session is written that keeps the selected agent of the session that
    was looked up. *)
Inductive Outcome (st : State) : Reply * State → Prop :=
  | NoWrite r st' :
      same_stores st' st →
      (∀ k, ¬ connects k r) →
      Outcome st (r, st')
  | WroteMenu r sid s st1 :
      same_stores st1 st →
      selectedAgent s = None →
      (∀ k, ¬ connects k r) →
      Outcome st (r, saveSession sid s st1)
  | WroteSelection r sid s a st1 :
      same_stores st1 st →
      selectedAgent s = Some a →
      ivrContext s = None →
      (∀ k, connects k r → k = sid) →
      Outcome st (r, saveSession sid s st1)
  | WroteRetry r sid s old st1 :
      same_stores st1 st →
      lookupSession sid st = Some old →
      selectedAgent s = selectedAgent old →
      (∀ k, ¬ connects k r) →
      Outcome st (r, saveSession sid s st1).

(** The attempt count the next lookup of [callSid] will see. *)
Definition attemptsSeen (callSid : string) (st : State) : option Z :=
  match lookupSession callSid st with
  | Some s =>
      match ivrContext s with
      | Some ctx => attempts ctx
      | None => None
      end
  | None => None
  end.

(** The prompt of a retry. *)
Definition retryPrompt (menu : IvrMenu) : string :=
  "Sorry, that's not a valid option. " +:+ greeting_text (menu_row menu).

(** The reply to an invalid digit below the attempt limit, and the reply
    at the limit. *)
Definition retryReply (sid : string) (menu : IvrMenu) : Reply :=
  Twiml [Gather (ivrSelectionUrl sid)
                (Js.or_num (timeout_seconds (menu_row menu)) 10)
                (retryPrompt menu);
         Redirect (ivrTimeoutUrl sid)].

Definition fallbackReply (sid : string) : Reply :=
  Twiml [streamTo sid; say "I'll connect you with our general assistant.";
         Pause 60].

(** Two configurations that agree on everything the routing reads: the
    binding of the dialled number, the strategy, the agents, the menu, the
    integrations and the recording flag.  They may differ in usage
    figures, limits and the embedded profile. *)
Definition routes_alike (a b : ClientConfig) : Prop :=
  phone_agent_id (phone_row (phoneNumber a))
  = phone_agent_id (phone_row (phoneNumber b))
  ∧ routingStrategy a = routingStrategy b
  ∧ agents a = agents b
  ∧ ivrMenu a = ivrMenu b
  ∧ externalIntegrations a = externalIntegrations b
  ∧ recordingEnabled a = recordingEnabled b.

(** The part of the voice webhook that follows the resolution. *)
Definition routeResolved (clock : Clock) (req : Request)
    (clientConfig : ClientConfig) (st : State) : Reply * State :=
  if Js.truthy_str (phone_agent_id (phone_row (phoneNumber clientConfig)))
  then directRoute clock req clientConfig st
  else dispatchStrategy clock req clientConfig st.

(** Two databases that differ at most in their [call_sessions]. *)
Definition same_configuration (a b : Database) : Prop :=
  db_available a = db_available b
  ∧ profiles a = profiles b
  ∧ phone_numbers a = phone_numbers b
  ∧ ai_agents a = ai_agents b
  ∧ ivr_menus a = ivr_menus b
  ∧ ivr_option_rows a = ivr_option_rows b
  ∧ external_integrations a = external_integrations b
  ∧ call_logs a = call_logs b.

End Router.

(** ** Duplex relay ([Tw2GemServer]) *)

Module Relay.

Definition newline : string := String (ascii_of_nat 10) EmptyString.

(** The per-call state kept on the telephony socket.  [geminiReady]
    stands for [socket.geminiLive.readyState === 1]. *)
Record Socket := {
  agentInfo : option Agent;
  clientInfo : option ClientConfig;
  callSession : option CallSession;
  geminiReady : bool;
  twilioStreamSid : option string;
  callStartTime : Z;
  transcript : string;
  callLogId : option Z;
  lastUserSpeech : option Z
}.

(** One part of a [modelTurn]. *)
Record Part := {
  inline_mimeType : option string;
  inline_data : option string;
  part_text : option string
}.

(** A parsed message of the telephony stream. *)
Inductive TwilioMessage :=
  | Connected
  | Start (streamSid : option string)
  | Media (payload : option string)
  | Stop
  | OtherEvent (name : string)
  | Malformed.

(** What can happen on the two connections of a call. *)
Inductive Event :=
  | TwilioMessageIn (now : Z) (m : TwilioMessage)
  | TwilioClose (now : Z)
  | TwilioError
  | GeminiReady
  | GeminiError
  | GeminiClose
  | GeminiServerContent (parts : option (list Part)).

(** The directive of [server.geminiLive.onReady]: a [client_content]
    message with one user turn. *)
Record ClientContent := {
  turn_role : string;
  turn_text : string;
  turn_complete : bool
}.

(** What the relay does to the outside: console lines, calls to the call
    record sink, and operations on the two connections. *)
Inductive Effect :=
  | Log (line : string)
  | UpdateCallLog (id : Z) (updates : CallLogUpdates)
  | IncrementMinutesUsed (profileId : string) (minutes : Z)
  | GeminiCloseCall
  | GeminiSendRealtimeInput (mimeType data : string)
  | GeminiSend (message : ClientContent)
  | TwilioSendMedia (streamSid : option string) (payload : string)
  | TwilioCloseCall
  | SetTimeout (delay : Z).

Section WithConverter.

(** The two conversions of the [AudioConverter] package, which may
    raise on a payload. *)
Variable convertBase64MuLawToBase64PCM16k : string → Js.Error + string.
Variable convertBase64PCM24kToBase64MuLaw8k : string → Js.Error + string.

Definition set_transcript (s : Socket) (t : string) : Socket :=
  {| agentInfo := agentInfo s; clientInfo := clientInfo s;
     callSession := callSession s; geminiReady := geminiReady s;
     twilioStreamSid := twilioStreamSid s;
     callStartTime := callStartTime s; transcript := t;
     callLogId := callLogId s; lastUserSpeech := lastUserSpeech s |}.

Definition set_streamSid (s : Socket) (sid : option string) : Socket :=
  {| agentInfo := agentInfo s; clientInfo := clientInfo s;
     callSession := callSession s; geminiReady := geminiReady s;
     twilioStreamSid := sid;
     callStartTime := callStartTime s; transcript := transcript s;
     callLogId := callLogId s; lastUserSpeech := lastUserSpeech s |}.

Definition set_geminiReady (s : Socket) (b : bool) : Socket :=
  {| agentInfo := agentInfo s; clientInfo := clientInfo s;
     callSession := callSession s; geminiReady := b;
     twilioStreamSid := twilioStreamSid s;
     callStartTime := callStartTime s; transcript := transcript s;
     callLogId := callLogId s; lastUserSpeech := lastUserSpeech s |}.

Definition mark_speech (s : Socket) (now : Z) : Socket :=
  {| agentInfo := agentInfo s; clientInfo := clientInfo s;
     callSession := callSession s; geminiReady := geminiReady s;
     twilioStreamSid := twilioStreamSid s;
     callStartTime := callStartTime s;
     transcript := transcript s +:+ "User: [Speech]" +:+ newline;
     callLogId := callLogId s; lastUserSpeech := Some now |}.

(** The audio loop of [handleGeminiResponse]: every audio part is
    converted and sent; a conversion error leaves the loop. *)
Fixpoint forwardAudio (sid : option string) (parts : list Part)
  : list Effect :=
  match parts with
  | [] => []
  | p :: rest =>
      let isAudio :=
        match inline_mimeType p with
        | Some m => String.prefix "audio/" m
        | None => false
        end in
      if isAudio && Js.truthy_str (inline_data p) then
        match convertBase64PCM24kToBase64MuLaw8k
                (Js.or_str (inline_data p) "") with
        | inr twilioAudio =>
            TwilioSendMedia sid twilioAudio
              :: Log "Sent audio to Twilio" :: forwardAudio sid rest
        | inl _ => [Log "Error handling Gemini response"]
        end
      else forwardAudio sid rest
  end.

(** The transcript loop of [onServerContent]. *)
Fixpoint captureText (t : string) (parts : list Part) : string :=
  match parts with
  | [] => t
  | p :: rest =>
      if Js.truthy_str (part_text p)
      then captureText (t +:+ "AI: " +:+ Js.or_str (part_text p) ""
                          +:+ newline) rest
      else captureText t rest
  end.

(** [handleTwilioMessage]. *)
Definition handleTwilioMessage (s : Socket) (m : TwilioMessage)
  : Socket * list Effect :=
  match m with
  | Connected => (s, [Log "Twilio connected"])
  | Start sid =>
      (set_streamSid s sid,
       [Log "Call started"; Log "Gemini Live client ready for audio"])
  | Media payload =>
      if Js.truthy_str payload then
        match convertBase64MuLawToBase64PCM16k (Js.or_str payload "") with
        | inr audioData =>
            (s, [Log "Sending audio to Gemini";
                 GeminiSendRealtimeInput "audio/pcm;rate=16000" audioData])
        | inl _ => (s, [Log "Audio conversion error"])
        end
      else (s, [])
  | Stop => (set_geminiReady s false, [Log "Call stopped"; GeminiCloseCall])
  | OtherEvent _ => (s, [Log "Unknown Twilio event"])
  | Malformed => (s, [])
  end.

(** [socket.on('message')]: dispatch, then mark user speech at most once
    every five seconds. *)
Definition onMessage (s : Socket) (now : Z) (m : TwilioMessage)
  : Socket * list Effect :=
  match m with
  | Malformed => (s, [Log "Error parsing Twilio message"])
  | _ =>
      let '(s1, fx) := handleTwilioMessage s m in
      match m with
      | Media payload =>
          if Js.truthy_str payload
             && (negb (Js.truthy_num (lastUserSpeech s1))
                 || (5000 <? now - default 0 (lastUserSpeech s1)))
          then (mark_speech s1 now, fx)
          else (s1, fx)
      | _ => (s1, fx)
      end
  end.

(** [durationSeconds] as the close handler computes it. *)
Definition durationSeconds (s : Socket) (endTime : Z) : Z :=
  Js.round_div (endTime - callStartTime s) 1000.

(** [socket.on('close')]. *)
Definition onClose (s : Socket) (endTime : Z) : Socket * list Effect :=
  let finalize :=
    match callLogId s with
    | Some id =>
        let d := durationSeconds s endTime in
        (UpdateCallLog id {| upd_status := "completed";
                             upd_ended_at := endTime;
                             upd_duration_seconds := d;
                             upd_transcript := transcript s |}
           :: Log "Call log updated"
           :: match clientInfo s with
              | Some c =>
                  [IncrementMinutesUsed (clientId c) (Js.ceil_div d 60);
                   Log "Minutes used incremented"]
              | None => []
              end)%list
    | None => []
    end in
  (set_geminiReady s false,
   (Log "Twilio connection closed" :: finalize
      ++ [GeminiCloseCall; Log "Call ended"])%list).

(** The handlers installed on the per-call client and on the socket. *)
Definition step (s : Socket) (e : Event) : Socket * list Effect :=
  match e with
  | TwilioMessageIn now m => onMessage s now m
  | TwilioClose now => onClose s now
  | TwilioError => (s, [Log "Twilio WebSocket error"; Log "Server error"])
  | GeminiReady =>
      (set_geminiReady s true, [Log "Gemini Live client connected and ready"])
  | GeminiError => (s, [Log "Gemini Live client error"])
  | GeminiClose => (set_geminiReady s false, [Log "Gemini Live client closed"])
  | GeminiServerContent parts =>
      let l := default [] parts in
      (set_transcript s (captureText (transcript s) l),
       (Log "Received from Gemini" :: forwardAudio (twilioStreamSid s) l)%list)
  end.

(** A call as the sequence of events on its two connections. *)
Fixpoint run (s : Socket) (events : list Event) : Socket * list Effect :=
  match events with
  | [] => (s, [])
  | e :: rest =>
      let '(s1, fx1) := step s e in
      let '(s2, fx2) := run s1 rest in
      (s2, (fx1 ++ fx2)%list)
  end.

End WithConverter.

(** The greeting directive. *)
Definition initialMessage : ClientContent :=
  {| turn_role := "user";
     turn_text :=
       "Please greet the caller now. Say hello and ask how you can help them today.";
     turn_complete := true |}.

(** The timer body of [server.geminiLive.onReady]. *)
Definition greetingTask (s : Socket) : list Effect :=
  if geminiReady s
  then [GeminiSend initialMessage; Log "Sent initial greeting prompt to Gemini"]
  else [].

(** [server.geminiLive.onReady]: it arms a 500 ms timer for
    [greetingTask].  The handler is a property of the [GeminiLiveEvents]
    holder; the per-call client's own [onReady] (the [GeminiReady] case of
    [step]) does not call it. *)
Definition serverGeminiLiveOnReady (s : Socket) : list Effect :=
  [Log "Gemini Live connection ready for call"; SetTimeout 500].

(** [createCallLog]: an [insert] into [call_logs] that returns the new
    row, or [null] when the service is unreachable. *)
Definition createCallLog (row : Z → CallLog) (d : Database)
  : option CallLog * Database :=
  if db_available d then
    let r := row (Z.of_nat (length (call_logs d))) in
    (Some r,
     {| db_available := db_available d;
        profiles := profiles d;
        phone_numbers := phone_numbers d;
        ai_agents := ai_agents d;
        ivr_menus := ivr_menus d;
        ivr_option_rows := ivr_option_rows d;
        external_integrations := external_integrations d;
        call_sessions := call_sessions d;
        call_logs := (call_logs d ++ [r])%list |})
  else (None, d).

(** The set-up part of [this.on('connection')]: the session is looked up
    by the [callSid] of the URL (empty when absent), the agent and the
    tenant are attached when the session has a selected agent, and a call
    log is created when both are attached. *)
Definition onConnection (now : Z) (callSid : string) (st : Router.State)
  : Socket * Router.State :=
  let found :=
    if Js.truthy_str (Some callSid) then Router.lookupSession callSid st
    else None in
  let attached :=
    match found with
    | Some cs =>
        match selectedAgent cs with
        | Some a => Some (a, clientConfig cs, cs)
        | None => None
        end
    | None => None
    end in
  let '(log, d) :=
    match attached with
    | Some (a, c, cs) =>
        createCallLog
          (fun id => {| log_id := id;
                        log_profile_id := clientId c;
                        log_agent_id := agent_id a;
                        log_call_sid := callSid;
                        log_from := Js.or_str (Some (fromNumber cs)) "unknown";
                        log_to := Js.or_str (Some (toNumber cs)) "unknown";
                        log_direction := Js.or_str (Some (callType cs)) "inbound";
                        log_status := "in_progress";
                        log_started_at := now |})
          (Router.db st)
    | None => (None, Router.db st)
    end in
  ({| agentInfo := (fun x => x.1.1) <$> attached;
      clientInfo := (fun x => x.1.2) <$> attached;
      callSession := (fun x => x.2) <$> attached;
      geminiReady := false;
      twilioStreamSid := Some callSid;
      callStartTime := now;
      transcript := "";
      callLogId := log_id <$> log;
      lastUserSpeech := None |},
   {| Router.db := d;
      Router.callSessionStore := Router.callSessionStore st;
      Router.clientConfigCache := Router.clientConfigCache st |}).

(** The calls made to the sink and to the connections, read off a list
    of effects. *)
Definition finalizations (fx : list Effect) : list (Z * CallLogUpdates) :=
  omap (fun e => match e with
                 | UpdateCallLog id u => Some (id, u)
                 | _ => None
                 end) fx.

Definition usageIncrements (fx : list Effect) : list (string * Z) :=
  omap (fun e => match e with
                 | IncrementMinutesUsed p m => Some (p, m)
                 | _ => None
                 end) fx.

Definition directives (fx : list Effect) : list ClientContent :=
  omap (fun e => match e with
                 | GeminiSend m => Some m
                 | _ => None
                 end) fx.

Definition isTeardown (e : Effect) : bool :=
  match e with
  | TwilioCloseCall => true
  | _ => false
  end.

Definition isTwilioClose (e : Event) : bool :=
  match e with
  | TwilioClose _ => true
  | _ => false
  end.

(** The media frames put on the telephony socket, with their stream
    identifier, read off a list of effects. *)
Definition mediaFrames (fx : list Effect) : list (option string * string) :=
  omap (fun e => match e with
                 | TwilioSendMedia sid payload => Some (sid, payload)
                 | _ => None
                 end) fx.

(** The test [handleGeminiResponse] applies to a part: inline data of an
    [audio/] type with a non-empty payload. *)
Definition audioPart (p : Part) : bool :=
  match inline_mimeType p with
  | Some m => String.prefix "audio/" m
  | None => false
  end && Js.truthy_str (inline_data p).

(** The payload handed to the converter for a part. *)
Definition payloadOf (p : Part) : string := Js.or_str (inline_data p) "".

End Relay.

(** ** Usage counter ([incrementMinutesUsed] and the SQL function it
    calls) *)

Module Sink.

Definition with_profiles (d : Database) (ps : list Profile) : Database :=
  {| db_available := db_available d;
     profiles := ps;
     phone_numbers := phone_numbers d;
     ai_agents := ai_agents d;
     ivr_menus := ivr_menus d;
     ivr_option_rows := ivr_option_rows d;
     external_integrations := external_integrations d;
     call_sessions := call_sessions d;
     call_logs := call_logs d |}.

(** One profile under [SET minutes_used = minutes_used + p_minutes]: the
    sum with [NULL] is [NULL]. *)
Definition add_minutes (p_minutes : Z) (p : Profile) : Profile :=
  {| profile_id := profile_id p;
     client_name := client_name p;
     full_name := full_name p;
     routing_strategy := routing_strategy p;
     call_recording_enabled := call_recording_enabled p;
     transcription_enabled := transcription_enabled p;
     max_concurrent_calls := max_concurrent_calls p;
     monthly_minute_limit := monthly_minute_limit p;
     minutes_used := (fun m => m + p_minutes) <$> minutes_used p |}.

(** [increment_minutes_used(p_profile_id, p_minutes)] of the schema: the
    update of the rows [WHERE id = p_profile_id]. *)
Definition increment_minutes_used (p_profile_id : string) (p_minutes : Z)
    (ps : list Profile) : list Profile :=
  List.map (fun p => if String.eqb (profile_id p) p_profile_id
                     then add_minutes p_minutes p else p) ps.

(** [incrementMinutesUsed]: the remote call; [false] when the service
    cannot be reached. *)
Definition incrementMinutesUsed (profileId : string) (minutes : Z)
    (d : Database) : bool * Database :=
  if db_available d
  then (true, with_profiles d (increment_minutes_used profileId minutes
                                 (profiles d)))
  else (false, d).

End Sink.

(** ** A sample tenant

    One tenant with a general and an after-hours agent, a primary number
    bound to no agent, a second number bound to the general agent, and an
    IVR menu of two options that allows three attempts.  The profile has
    recording and transcription switched off. *)

Module Sample.

Definition tenant : Profile :=
  {| profile_id := "tenant-1";
     client_name := Some "Acme";
     full_name := None;
     routing_strategy := Some "single_number_ivr";
     call_recording_enabled := Some false;
     transcription_enabled := Some false;
     max_concurrent_calls := None;
     monthly_minute_limit := None;
     minutes_used := None |}.

Definition A1 : Agent :=
  {| agent_id := "A1";
     agent_profile_id := Some "tenant-1";
     agent_name := "Front desk";
     agent_type := "general";
     voice_name := None;
     language_code := None;
     system_instruction := None;
     greeting := Some "Welcome to Acme.";
     agent_is_active := Some true;
     business_hours_start := Some "09:00";
     business_hours_end := Some "17:00";
     business_days := Some [1; 2; 3; 4; 5] |}.

Definition A2 : Agent :=
  {| agent_id := "A2";
     agent_profile_id := Some "tenant-1";
     agent_name := "Night desk";
     agent_type := "after_hours";
     voice_name := None;
     language_code := None;
     system_instruction := None;
     greeting := None;
     agent_is_active := Some true;
     business_hours_start := None;
     business_hours_end := None;
     business_days := None |}.

Definition mainLine : PhoneNumberRow :=
  {| phone_number := "+15550100";
     phone_profile_id := Some "tenant-1";
     phone_agent_id := None;
     is_primary := Some true |}.

Definition directLine : PhoneNumberRow :=
  {| phone_number := "+15550101";
     phone_profile_id := Some "tenant-1";
     phone_agent_id := Some "A1";
     is_primary := Some true |}.

Definition menu : IvrMenuRow :=
  {| menu_id := "menu-1";
     menu_profile_id := Some "tenant-1";
     menu_name := "Main menu";
     greeting_text := "Press 1 for the front desk, 2 for the night desk.";
     timeout_seconds := None;
     max_attempts := Some 3;
     menu_is_active := Some true |}.

Definition option1 : IvrOption :=
  {| option_id := "opt-1"; ivr_menu_id := Some "menu-1"; digit := "1";
     option_agent_id := Some "A1"; action_type := "agent";
     action_phone_number := None |}.

Definition option2 : IvrOption :=
  {| option_id := "opt-2"; ivr_menu_id := Some "menu-1"; digit := "2";
     option_agent_id := Some "A2"; action_type := "agent";
     action_phone_number := None |}.

(** The database, reachable or not. *)
Definition database (up : bool) : Database :=
  {| db_available := up;
     profiles := [tenant];
     phone_numbers := [mainLine; directLine];
     ai_agents := [A1; A2];
     ivr_menus := [menu];
     ivr_option_rows := [option1; option2];
     external_integrations := [];
     call_sessions := ∅;
     call_logs := [] |}.

(** The same tenant, routed by time of day. *)
Definition timedTenant : Profile :=
  {| profile_id := "tenant-1";
     client_name := Some "Acme";
     full_name := None;
     routing_strategy := Some "time_based";
     call_recording_enabled := Some true;
     transcription_enabled := Some true;
     max_concurrent_calls := None;
     monthly_minute_limit := None;
     minutes_used := None |}.

Definition timedDatabase : Database :=
  {| db_available := true;
     profiles := [timedTenant];
     phone_numbers := [mainLine];
     ai_agents := [A1; A2];
     ivr_menus := [];
     ivr_option_rows := [];
     external_integrations := [];
     call_sessions := ∅;
     call_logs := [] |}.

Definition start (d : Database) : Router.State :=
  {| Router.db := d;
     Router.callSessionStore := ∅;
     Router.clientConfigCache := ∅ |}.

(** A clock that reads the given local time in every zone. *)
Definition clockAt (ms day h m : Z) : Router.Clock :=
  {| Router.epoch_ms := ms;
     Router.wall := fun _ => {| Intl.weekday := day; Intl.hour := h;
                                Intl.minute := m |} |}.

(** A call to [number] with the given digits pressed, if any. *)
Definition request (number : string) (digits : option string)
  : Router.Request :=
  {| Router.To := number;
     Router.From := "+15559999";
     Router.CallSid := "CA1";
     Router.Digits := digits;
     Router.query_callSid := Some "CA1";
     Router.query_extension := None |}.

(** The configuration the resolver compiles for the main line. *)
Definition config : ClientConfig :=
  {| clientId := "tenant-1";
     clientName := Some "Acme";
     routingStrategy := "single_number_ivr";
     phoneNumber := {| phone_row := mainLine; profiles_of := Some tenant |};
     allPhoneNumbers := [mainLine; directLine];
     agents := [A1; A2];
     ivrMenu := Some {| menu_row := menu; ivr_options := [option1; option2] |};
     externalIntegrations := [];
     recordingEnabled := true;
     transcriptionEnabled := true;
     maxConcurrentCalls := 5;
     minutesLimit := 1000;
     minutesUsed := 0 |}.

(** The database after the tenant's numbers were removed. *)
Definition numbersRemoved : Database :=
  {| db_available := true;
     profiles := [tenant];
     phone_numbers := [];
     ai_agents := [A1; A2];
     ivr_menus := [menu];
     ivr_option_rows := [option1; option2];
     external_integrations := [];
     call_sessions := ∅;
     call_logs := [] |}.

(** A cache that holds the main line's configuration until [300000]. *)
Definition warmCache : gmap string Resolver.CacheEntry :=
  {[ "+15550100" := {| Resolver.data := config; Resolver.expiresAt := 300000 |} ]}.

(** The call of the IVR scenario: the first webhook on the main line,
    then three times the digit [9], which the menu does not offer. *)
Definition firstWebhook : Router.Operation :=
  Router.Voice (clockAt 1000 1 9 0) (request "+15550100" None).

Definition wrongDigit : Router.Operation :=
  Router.IvrSelection (request "+15550100" (Some "9")).

Definition threeWrongDigits : list Router.Operation :=
  [firstWebhook; wrongDigit; wrongDigit; wrongDigit].

(** The server with the configuration cached and the database out of
    reach, so that sessions live in the in-memory map only. *)
Definition memoryOnly : Router.State :=
  {| Router.db := database false;
     Router.callSessionStore := ∅;
     Router.clientConfigCache := warmCache |}.

Definition retry : Router.Reply :=
  Router.Twiml
    [Router.Gather "/webhook/ivr-selection?callSid=CA1" 10
       "Sorry, that's not a valid option. Press 1 for the front desk, 2 for the night desk.";
     Router.Redirect "/webhook/ivr-timeout?callSid=CA1"].

Definition fallback : Router.Reply :=
  Router.Twiml
    [Router.streamTo "CA1";
     Router.say "I'll connect you with our general assistant.";
     Router.Pause 60].

(** A tenant whose profile leaves the routing strategy unset and stores
    zero for both limits; its menu and numbers are those of [tenant]. *)
Definition bareTenant : Profile :=
  {| profile_id := "tenant-1";
     client_name := None;
     full_name := Some "Acme Ltd";
     routing_strategy := None;
     call_recording_enabled := None;
     transcription_enabled := None;
     max_concurrent_calls := Some 0;
     monthly_minute_limit := Some 0;
     minutes_used := None |}.

Definition bareDatabase : Database :=
  {| db_available := true;
     profiles := [bareTenant];
     phone_numbers := [mainLine; directLine];
     ai_agents := [A1; A2];
     ivr_menus := [menu];
     ivr_option_rows := [option1; option2];
     external_integrations := [];
     call_sessions := ∅;
     call_logs := [] |}.

(** The main line entered twice. *)
Definition duplicatedNumber : Database :=
  {| db_available := true;
     profiles := [tenant];
     phone_numbers := [mainLine; mainLine];
     ai_agents := [A1; A2];
     ivr_menus := [menu];
     ivr_option_rows := [option1; option2];
     external_integrations := [];
     call_sessions := ∅;
     call_logs := [] |}.

(** An agent that was switched off. *)
Definition retired : Agent :=
  {| agent_id := "A0";
     agent_profile_id := Some "tenant-1";
     agent_name := "Old desk";
     agent_type := "general";
     voice_name := None;
     language_code := None;
     system_instruction := None;
     greeting := None;
     agent_is_active := Some false;
     business_hours_start := None;
     business_hours_end := None;
     business_days := None |}.

(** A number bound to the retired agent. *)
Definition retiredLine : PhoneNumberRow :=
  {| phone_number := "+15550102";
     phone_profile_id := Some "tenant-1";
     phone_agent_id := Some "A0";
     is_primary := Some false |}.

Definition withRetired : Database :=
  {| db_available := true;
     profiles := [tenant];
     phone_numbers := [mainLine; directLine; retiredLine];
     ai_agents := [retired; A1; A2];
     ivr_menus := [menu];
     ivr_option_rows := [option1; option2];
     external_integrations := [];
     call_sessions := ∅;
     call_logs := [] |}.

(** A menu with a transfer option and a voicemail option, and a call that
    waits at it, held in memory. *)
Definition optionTransfer : IvrOption :=
  {| option_id := "opt-3"; ivr_menu_id := Some "menu-1"; digit := "3";
     option_agent_id := None; action_type := "transfer";
     action_phone_number := Some "+15557000" |}.

Definition optionVoicemail : IvrOption :=
  {| option_id := "opt-4"; ivr_menu_id := Some "menu-1"; digit := "4";
     option_agent_id := None; action_type := "voicemail";
     action_phone_number := None |}.

Definition waitingSession : CallSession :=
  {| clientConfig :=
       {| clientId := "tenant-1";
          clientName := Some "Acme";
          routingStrategy := "single_number_ivr";
          phoneNumber := {| phone_row := mainLine; profiles_of := Some tenant |};
          allPhoneNumbers := [mainLine];
          agents := [A1; A2];
          ivrMenu := Some {| menu_row := menu;
                             ivr_options := [option1; optionTransfer;
                                             optionVoicemail] |};
          externalIntegrations := [];
          recordingEnabled := true;
          transcriptionEnabled := true;
          maxConcurrentCalls := 5;
          minutesLimit := 1000;
          minutesUsed := 0 |};
     selectedAgent := None;
     ivrContext := Some {| menuId := Some "menu-1"; attempts := Some 0 |};
     callType := "inbound";
     fromNumber := "+15559999";
     toNumber := "+15550100";
     startTime := 0 |}.

Definition waiting : Router.State :=
  {| Router.db := database false;
     Router.callSessionStore := {[ "CA1" := waitingSession ]};
     Router.clientConfigCache := ∅ |}.

(** The tenant far beyond its monthly limit. *)
Definition spentTenant : Profile :=
  {| profile_id := "tenant-1";
     client_name := Some "Acme";
     full_name := None;
     routing_strategy := Some "single_number_ivr";
     call_recording_enabled := Some false;
     transcription_enabled := Some false;
     max_concurrent_calls := Some 1;
     monthly_minute_limit := Some 100;
     minutes_used := Some 5000 |}.

Definition spentDatabase : Database :=
  {| db_available := true;
     profiles := [spentTenant];
     phone_numbers := [mainLine; directLine];
     ai_agents := [A1; A2];
     ivr_menus := [menu];
     ivr_option_rows := [option1; option2];
     external_integrations := [];
     call_sessions := ∅;
     call_logs := [] |}.

(** A number bound to the tenant's second agent. *)
Definition nightLine : PhoneNumberRow :=
  {| phone_number := "+15550103";
     phone_profile_id := Some "tenant-1";
     phone_agent_id := Some "A2";
     is_primary := Some true |}.

Definition withNightLine : Database :=
  {| db_available := true;
     profiles := [tenant];
     phone_numbers := [mainLine; directLine; nightLine];
     ai_agents := [A1; A2];
     ivr_menus := [menu];
     ivr_option_rows := [option1; option2];
     external_integrations := [];
     call_sessions := ∅;
     call_logs := [] |}.

End Sample.

(** ** The JavaScript idioms on examples *)

Module JsFacts.

Example split_time : Js.split ":"%char "09:00" = ["09"; "00"].
Proof. reflexivity. Qed.

Example split_without_separator : Js.split ":"%char "0900" = ["0900"].
Proof. reflexivity. Qed.

Example number_of_digits : Js.Number "09" = Some 9 ∧ Js.Number "" = Some 0.
Proof. split; reflexivity. Qed.

Example number_strips_space :
  Js.Number "30 " = Some 30 ∧ Js.Number " 9" = Some 9 ∧ Js.Number "-5" = Some (-5).
Proof. repeat split. Qed.

Example number_of_word : Js.Number "noon" = None.
Proof. reflexivity. Qed.

Example minutes_of_closing : Router.minutesOfDay "17:01" = Some 1021.
Proof. reflexivity. Qed.

Example minutes_without_colon : Router.minutesOfDay "17" = None.
Proof. reflexivity. Qed.

(** [x || 3] takes the default for an absent and for a zero limit. *)
Example default_limit :
  Js.or_num None 3 = 3 ∧ Js.or_num (Some 0) 3 = 3 ∧ Js.or_num (Some 5) 3 = 5.
Proof. repeat split. Qed.

Example round_half_up : Js.round_div 60500 1000 = 61 ∧ Js.round_div 60499 1000 = 60.
Proof. split; reflexivity. Qed.

End JsFacts.

(** ** Properties of the configuration resolver *)

Module ResolverFacts.

Import Resolver.

Example sample_resolves :
  resolved (getClientConfigByPhoneNumber 0 (Sample.database true) ∅ "+15550100")
  = Some Sample.config.
Proof. reflexivity. Qed.

Lemma CACHE_TTL_is_five_minutes : CACHE_TTL = 300000.
Proof. reflexivity. Qed.

(** A fresh entry answers the request: nothing is queried and the cache
    is left as it was. *)
Lemma cache_hit now db cache n e :
  cache !! n = Some e →
  now < expiresAt e →
  getClientConfigByPhoneNumber now db cache n
  = {| resolved := Some (data e); cache_after := cache; queries := [] |}.
Proof.
  intros Hn Hlt. unfold getClientConfigByPhoneNumber. rewrite Hn.
  destruct (Z.ltb_spec now (expiresAt e)); [reflexivity | lia].
Qed.

(** Without a matching row the source of truth answers [null]. *)
Lemma fetch_no_row db n :
  no_row db n → fetchClientConfig db n = (None, [T_phone_numbers]).
Proof.
  intros Hno. unfold fetchClientConfig, query_phone.
  destruct (db_available db); [| reflexivity].
  unfold no_row in Hno. rewrite Hno. reflexivity.
Qed.

Lemma source_no_row now db cache n :
  no_row db n →
  resolveFromSource now db cache n
  = {| resolved := None; cache_after := cache; queries := [T_phone_numbers] |}.
Proof.
  intros Hno. unfold resolveFromSource. rewrite (fetch_no_row _ _ Hno).
  reflexivity.
Qed.

(** Whatever the source of truth compiles has both flags set. *)
Lemma fetch_flags db n c qs :
  fetchClientConfig db n = (Some c, qs) → flags_on c.
Proof.
  unfold fetchClientConfig.
  destruct (query_phone db n) as [pd |]; [| discriminate].
  destruct (profiles_of pd) as [p |]; [| discriminate].
  intros H. injection H as <- _. unfold flags_on; simpl.
  split.
  - destruct (call_recording_enabled p) as [[] |]; reflexivity.
  - destruct (transcription_enabled p) as [[] |]; reflexivity.
Qed.

Lemma source_keeps_flags now db cache n :
  cache_flags_on cache →
  cache_flags_on (cache_after (resolveFromSource now db cache n))
  ∧ ∀ c, resolved (resolveFromSource now db cache n) = Some c → flags_on c.
Proof.
  intros Hc. unfold resolveFromSource.
  destruct (fetchClientConfig db n) as [[c |] qs] eqn:Hf; simpl.
  - pose proof (fetch_flags _ _ _ _ Hf) as Hfl. split.
    + apply map_Forall_insert_2; [exact Hfl | exact Hc].
    + intros c' [= <-]. exact Hfl.
  - split; [exact Hc | discriminate].
Qed.

Lemma resolver_keeps_flags now db cache n :
  cache_flags_on cache →
  cache_flags_on (cache_after (getClientConfigByPhoneNumber now db cache n))
  ∧ ∀ c, resolved (getClientConfigByPhoneNumber now db cache n) = Some c →
         flags_on c.
Proof.
  intros Hc. unfold getClientConfigByPhoneNumber.
  destruct (cache !! n) as [e |] eqn:He.
  - destruct (now <? expiresAt e).
    + simpl. split; [exact Hc |].
      intros c [= <-]. exact (Hc _ _ He).
    + apply source_keeps_flags. apply map_Forall_delete. exact Hc.
  - apply source_keeps_flags. exact Hc.
Qed.

Lemma history_keeps_flags history cache :
  cache_flags_on cache → cache_flags_on (cache_after_calls cache history).
Proof.
  revert cache. induction history as [| c rest IH]; intros cache Hc.
  - exact Hc.
  - simpl. apply IH. apply resolver_keeps_flags. exact Hc.
Qed.

(** C6, as stated, fails: the second half of the claim promises [null]
    for every number without a [phone_numbers] row, but a number whose row
    was removed after its configuration was cached is still answered from
    the cache until the entry expires. *)
Lemma stale_entry_outlives_row :
  ¬ (∀ now db cache n,
       no_row db n →
       resolved (getClientConfigByPhoneNumber now db cache n) = None).
Proof.
  intros H.
  specialize (H 1000 Sample.numbersRemoved Sample.warmCache "+15550100"
                eq_refl).
  vm_compute in H. discriminate H.
Qed.

(** C6, amended: the resolver consults the cache first, with a lifetime
    of five minutes.  An entry whose expiry lies in the future is returned
    verbatim, without any database query and without touching the cache.
    When no such entry answers, a number without a [phone_numbers] row
    resolves to [null], and a configuration that is compiled is cached
    until five minutes after the request. *)
Theorem resolver_cache_before_source now db cache n :
  let r := getClientConfigByPhoneNumber now db cache n in
  (∀ e, cache !! n = Some e → now < expiresAt e →
        resolved r = Some (data e) ∧ queries r = [] ∧ cache_after r = cache)
  ∧ (fresh now cache n = false → no_row db n → resolved r = None)
  ∧ (∀ c, fresh now cache n = false → resolved r = Some c →
          cache_after r !! n
          = Some {| data := c; expiresAt := now + 5 * 60 * 1000 |}).
Proof.
  cbv zeta. split; [| split].
  - intros e He Hlt. rewrite (cache_hit _ _ _ _ _ He Hlt). auto.
  - unfold fresh, getClientConfigByPhoneNumber.
    destruct (cache !! n) as [e |].
    + intros -> Hno. rewrite source_no_row by exact Hno. reflexivity.
    + intros _ Hno. rewrite source_no_row by exact Hno. reflexivity.
  - intros c. unfold fresh, getClientConfigByPhoneNumber, resolveFromSource.
    destruct (cache !! n) as [e |].
    + intros ->.
      destruct (fetchClientConfig db n) as [[c' |] qs]; simpl;
        [| discriminate].
      intros [= <-]. apply lookup_insert_eq.
    + intros _.
      destruct (fetchClientConfig db n) as [[c' |] qs]; simpl;
        [| discriminate].
      intros [= <-]. apply lookup_insert_eq.
Qed.

Lemma resolver_cache_before_source_witness :
  (resolved (getClientConfigByPhoneNumber 1000 Sample.numbersRemoved
               Sample.warmCache "+15550100") = Some Sample.config
   ∧ queries (getClientConfigByPhoneNumber 1000 Sample.numbersRemoved
                Sample.warmCache "+15550100") = [])
  ∧ resolved (getClientConfigByPhoneNumber 300000 Sample.numbersRemoved
                Sample.warmCache "+15550100") = None
  ∧ cache_after (getClientConfigByPhoneNumber 300000 (Sample.database true)
                   Sample.warmCache "+15550100") !! "+15550100"
    = Some {| data := Sample.config; expiresAt := 600000 |}.
Proof.
  split; [| split].
  - destruct (resolver_cache_before_source 1000 Sample.numbersRemoved
                Sample.warmCache "+15550100") as [H _].
    destruct (H {| data := Sample.config; expiresAt := 300000 |})
      as (H1 & H2 & _); [reflexivity | simpl; lia |].
    split; [exact H1 | exact H2].
  - destruct (resolver_cache_before_source 300000 Sample.numbersRemoved
                Sample.warmCache "+15550100") as (_ & H & _).
    apply H; reflexivity.
  - destruct (resolver_cache_before_source 300000 (Sample.database true)
                Sample.warmCache "+15550100") as (_ & _ & H).
    apply (H Sample.config); reflexivity.
Defined.

(** C10: every configuration the resolver returns, from the source of
    truth or from a cache that only the resolver has filled, has
    [recordingEnabled] and [transcriptionEnabled] set, whatever the
    profile stores: [x || true] is [true] for every [x]. *)
Theorem resolved_flags_always_on history now db n c :
  resolved (getClientConfigByPhoneNumber now db
              (cache_after_calls ∅ history) n) = Some c →
  recordingEnabled c = true
  ∧ transcriptionEnabled c = true
  ∧ ∀ stored : option bool, Js.or_bool stored true = true.
Proof.
  intros H.
  assert (Hc : cache_flags_on (cache_after_calls ∅ history)).
  { apply history_keeps_flags. apply map_Forall_empty. }
  destruct (resolver_keeps_flags now db _ n Hc) as [_ Hr].
  destruct (Hr c H) as [H1 H2].
  split; [exact H1 | split; [exact H2 |]].
  intros [[] |]; reflexivity.
Qed.

Lemma resolved_flags_always_on_witness :
  call_recording_enabled Sample.tenant = Some false
  ∧ transcription_enabled Sample.tenant = Some false
  ∧ recordingEnabled Sample.config = true
  ∧ transcriptionEnabled Sample.config = true.
Proof.
  split; [reflexivity | split; [reflexivity |]].
  destruct (resolved_flags_always_on [] 0 (Sample.database true)
              "+15550100" Sample.config) as (H1 & H2 & _).
  - reflexivity.
  - split; [exact H1 | exact H2].
Defined.

End ResolverFacts.

(** ** Properties of the session router *)

Module RouterFacts.

Import Resolver Router.

(** *** The session stores *)

Lemma saveSession_memory sid s st :
  callSessionStore (saveSession sid s st) !! sid = Some s.
Proof. simpl. apply lookup_insert_eq. Qed.

Lemma storeCallSession_rows sid s d k v :
  call_sessions (storeCallSession sid s d) !! k = Some v →
  call_sessions d !! k = Some v ∨ (k = sid ∧ v = s).
Proof.
  unfold storeCallSession.
  destruct (db_available d); [| auto].
  destruct (call_sessions d !! sid) eqn:Hrow; [auto |].
  simpl. rewrite lookup_insert.
  destruct (decide (sid = k)) as [-> | Hne].
  - intros [= <-]. auto.
  - auto.
Qed.

(** What [saveSession] leaves in the stores is what was there or the
    session just written. *)
Lemma stored_saveSession sid s st k v :
  stored (saveSession sid s st) k v → stored st k v ∨ (k = sid ∧ v = s).
Proof.
  unfold stored. simpl. intros [Hm | Hd].
  - rewrite lookup_insert in Hm.
    destruct (decide (sid = k)) as [-> | Hne].
    + injection Hm as <-. auto.
    + auto.
  - destruct (storeCallSession_rows _ _ _ _ _ Hd); auto.
Qed.

(** With the database reachable and a row present, the row is what every
    lookup returns, and a second [insert] changes nothing. *)
Lemma insert_on_existing_row sid s s0 d :
  db_available d = true →
  call_sessions d !! sid = Some s0 →
  storeCallSession sid s d = d.
Proof. intros Hup Hrow. unfold storeCallSession. rewrite Hup, Hrow. reflexivity. Qed.

Lemma lookup_prefers_database sid s s0 st :
  db_available (db st) = true →
  call_sessions (db st) !! sid = Some s0 →
  lookupSession sid (saveSession sid s st) = Some s0.
Proof.
  intros Hup Hrow. unfold lookupSession, getCallSession. simpl.
  rewrite (insert_on_existing_row sid s s0 _ Hup Hrow), Hup, Hrow.
  reflexivity.
Qed.

(** With the database unreachable, the in-memory map answers. *)
Lemma lookup_falls_back_to_memory sid s st :
  db_available (db st) = false →
  lookupSession sid (saveSession sid s st) = Some s.
Proof.
  intros Hdown.
  assert (Hsame : storeCallSession sid s (db st) = db st).
  { unfold storeCallSession. rewrite Hdown. reflexivity. }
  unfold lookupSession, getCallSession. simpl.
  rewrite Hsame, Hdown. apply lookup_insert_eq.
Qed.

(** *** Stream URLs identify the call *)

Lemma append_inj_r (p a b : string) : p +:+ a = p +:+ b → a = b.
Proof.
  induction p as [| c p IH]; simpl; intros H; [exact H |].
  injection H as H. auto.
Qed.

Lemma streamTo_inj a b : streamTo a = streamTo b → a = b.
Proof.
  unfold streamTo. intros [= H].
  repeat (apply append_inj_r in H). exact H.
Qed.

Lemma connects_connectTo sid sid' a :
  connects sid (Twiml (connectTo sid' a)) → sid = sid'.
Proof.
  simpl. intros [H | [H | [H | []]]]; try discriminate H.
  symmetry. apply streamTo_inj. exact H.
Qed.

(** *** Direct number binding *)

(** [agents.find(a => a.id === id)] returns the first agent of the list
    that carries the id, and nothing else. *)
Lemma findAgent_first aid l a :
  findAgent (Some aid) l = Some a
  ↔ ∃ before after,
      l = (before ++ a :: after)%list
      ∧ agent_id a = aid
      ∧ Forall (fun x => agent_id x ≠ aid) before.
Proof.
  unfold findAgent. induction l as [| x l IH]; simpl.
  - split; [discriminate |].
    intros (before & after & H & _). destruct before; discriminate H.
  - destruct (String.eqb_spec (agent_id x) aid) as [Heq | Hne].
    + split.
      * intros [= <-]. exists [], l. repeat split; [exact Heq | constructor].
      * intros (before & after & H & Ha & Hb).
        destruct before as [| y before].
        -- simpl in H. injection H as -> _. reflexivity.
        -- simpl in H. injection H as -> _.
           inversion Hb; subst. contradiction.
    + rewrite IH. split.
      * intros (before & after & -> & Ha & Hb).
        exists (x :: before), after. repeat split; [exact Ha |].
        constructor; assumption.
      * intros (before & after & H & Ha & Hb).
        destruct before as [| y before].
        -- simpl in H. injection H as -> _. contradiction.
        -- simpl in H. injection H as -> ->.
           inversion Hb; subst. exists before, after. auto.
Qed.

Lemma findAgent_finds aid l bound :
  In bound l → agent_id bound = aid → ∃ a, findAgent (Some aid) l = Some a.
Proof.
  unfold findAgent. intros Hin Hid.
  destruct (List.find _ l) as [a |] eqn:Hf; [eauto |].
  exfalso. pose proof (find_none _ _ Hf bound Hin) as Hn. simpl in Hn.
  rewrite Hid, String.eqb_refl in Hn. discriminate.
Qed.

(** C1: when the resolved configuration's dialled number carries an
    agent binding and an agent with the bound id is among the tenant's
    agents, the voice webhook connects the call to the bound agent (the
    first agent of the list that carries the bound id, which is the agent
    itself when ids are unique) and stores a session whose
    [selectedAgent] is that agent.  The reply and the stores are those of
    the direct branch for every value of [routingStrategy]; the strategy
    [switch] is not consulted. *)
Theorem direct_binding_wins clock req st cfg aid bound :
  resolved (getClientConfigByPhoneNumber (epoch_ms clock) (db st)
              (clientConfigCache st) (To req)) = Some cfg →
  phone_agent_id (phone_row (phoneNumber cfg)) = Some aid →
  aid ≠ "" →
  In bound (agents cfg) →
  agent_id bound = aid →
  ∃ agent before after,
    agents cfg = (before ++ agent :: after)%list
    ∧ agent_id agent = aid
    ∧ Forall (fun a => agent_id a ≠ aid) before
    ∧ ((∀ a, In a (agents cfg) → agent_id a = aid → a = bound) → agent = bound)
    ∧ let session := sessionFor cfg agent req (epoch_ms clock) in
      let verbs :=
        ((if recordingEnabled cfg then [RecordCall "/webhook/recording" 14400]
          else []) ++ connectTo (CallSid req) agent)%list in
      let st' := (webhook_voice clock req st).2 in
      (webhook_voice clock req st).1 = Twiml verbs
      ∧ connects (CallSid req) (Twiml verbs)
      ∧ In (greet agent) verbs
      ∧ selectedAgent session = Some agent
      ∧ callSessionStore st' !! CallSid req = Some session
      ∧ db st' = storeCallSession (CallSid req) session (db st)
      ∧ webhook_voice clock req st
        = directRoute clock req cfg
            {| db := db st;
               callSessionStore := callSessionStore st;
               clientConfigCache :=
                 cache_after (getClientConfigByPhoneNumber (epoch_ms clock)
                                (db st) (clientConfigCache st) (To req)) |}.
Proof.
  intros Hres Hbind Hne Hin Hid.
  destruct (findAgent_finds aid (agents cfg) bound Hin Hid) as [agent Hfind].
  pose proof (proj1 (findAgent_first aid (agents cfg) agent) Hfind)
    as (before & after & Hsplit & Hagent & Hbefore).
  exists agent, before, after.
  split; [exact Hsplit | split; [exact Hagent | split; [exact Hbefore |]]].
  split.
  { intros Huniq. apply Huniq; [| exact Hagent].
    rewrite Hsplit. apply in_or_app. right. left. reflexivity. }
  assert (Hbound : Js.truthy_str (phone_agent_id (phone_row (phoneNumber cfg)))
                   = true).
  { rewrite Hbind. simpl. destruct (String.eqb_spec aid ""); [contradiction |].
    reflexivity. }
  cbv zeta. unfold webhook_voice. rewrite Hres, Hbound.
  unfold directRoute. rewrite Hbind, Hfind. cbn [fst snd].
  split; [reflexivity |].
  split; [simpl; apply in_or_app; right; left; reflexivity |].
  split; [apply in_or_app; right; right; left; reflexivity |].
  split; [reflexivity |].
  split; [apply saveSession_memory |].
  split; reflexivity.
Qed.

(** The scenario of the specification, on a number bound to the tenant's
    second agent: the tenant's strategy is [single_number_ivr], whose
    dispatch would prompt for a digit, the first agent is [A1], and the
    call is connected to the bound agent [A2]. *)
Lemma direct_binding_wins_witness :
  let clock := Sample.clockAt 0 1 9 0 in
  let req := Sample.request "+15550103" None in
  let st := Sample.start Sample.withNightLine in
  (agents <$> resolved (getClientConfigByPhoneNumber 0 (db st) ∅ "+15550103"))
  = Some [Sample.A1; Sample.A2]
  ∧ (routingStrategy <$> resolved (getClientConfigByPhoneNumber 0 (db st) ∅
                                     "+15550103"))
    = Some "single_number_ivr"
  ∧ (webhook_voice clock req st).1 = Twiml (RecordCall "/webhook/recording" 14400
                                            :: connectTo "CA1" Sample.A2)
  ∧ (selectedAgent <$> callSessionStore (webhook_voice clock req st).2 !! "CA1")
    = Some (Some Sample.A2)
  ∧ match resolved (getClientConfigByPhoneNumber 0 (db st) ∅ "+15550103") with
    | Some cfg =>
        prompts "Press 1 for the front desk, 2 for the night desk."
                (dispatchStrategy clock req cfg st).1
    | None => False
    end.
Proof.
  intros clock req st.
  destruct (resolved (getClientConfigByPhoneNumber 0 (db st) ∅ "+15550103"))
    as [cfg |] eqn:Hc; [| discriminate Hc].
  pose proof (direct_binding_wins clock req st cfg "A2" Sample.A2 Hc) as H.
  vm_compute in Hc. injection Hc as <-.
  destruct H as (agent & before & after & _ & _ & _ & Hsame & Hr & _ & _ & _ & Hm & _);
    [reflexivity | discriminate | right; left; reflexivity | reflexivity |].
  assert (Hagent : agent = Sample.A2).
  { apply Hsame. intros a [<- | [<- | []]] Ha; [discriminate Ha | reflexivity]. }
  subst agent.
  split; [reflexivity | split; [reflexivity | split; [exact Hr | split]]].
  - change (CallSid req) with "CA1" in Hm. rewrite Hm. reflexivity.
  - vm_compute. eexists _, _. left. reflexivity.
Defined.

(** *** IVR retries *)

(** One submission of a digit that no option carries, against the
    session the lookup returns: the count goes up by one; at the limit
    the call goes to the first agent and the written session has no IVR
    context; below it the menu is prompted again and the written session
    carries the new count.  In both cases the session is written to the
    in-memory map. *)
Lemma invalid_digit_step req st cs menu ctx :
  let sid := Js.or_str (query_callSid req) (CallSid req) in
  lookupSession sid st = Some cs →
  ivrMenu (clientConfig cs) = Some menu →
  ivrContext cs = Some ctx →
  findOption (Digits req) (ivr_options menu) = None →
  let n := Js.or_num (attempts ctx) 0 + 1 in
  let r := (webhook_ivr_selection req st).1 in
  let st' := (webhook_ivr_selection req st).2 in
  if Js.or_num (max_attempts (menu_row menu)) 3 <=? n then
    match agents (clientConfig cs) with
    | a :: _ =>
        connects sid r
        ∧ callSessionStore st' !! sid = Some (withSelectedAgent cs a)
    | [] => st' = st
    end
  else
    prompts (retryPrompt menu) r
    ∧ callSessionStore st' !! sid = Some (withAttempts cs ctx n).
Proof.
  intros sid Hs Hm Hc Hf. cbv zeta.
  unfold webhook_ivr_selection. fold sid. rewrite Hs, Hm, Hf.
  unfold invalidSelection. rewrite Hc.
  change (default {| menuId := None; attempts := None |} (Some ctx)) with ctx.
  destruct (Js.or_num (max_attempts (menu_row menu)) 3
            <=? Js.or_num (attempts ctx) 0 + 1).
  - destruct (agents (clientConfig cs)) as [| a rest]; cbn [fst snd].
    + reflexivity.
    + split; [left; reflexivity | apply saveSession_memory].
  - cbn [fst snd]. split.
    + simpl. eexists _, _. left. reflexivity.
    + apply saveSession_memory.
Qed.

(** With a limit of three, a session that already counts two attempts
    falls back on the next invalid digit. *)
Lemma third_attempt_reaches_limit :
  (Js.or_num (Some 3) 3 <=? Js.or_num (Some 2) 0 + 1) = true
  ∧ (Js.or_num (Some 3) 3 <=? Js.or_num (Some 1) 0 + 1) = false.
Proof. split; reflexivity. Qed.

(** When the sessions live in the in-memory map, the third consecutive
    invalid digit is answered with the fallback to the first agent. *)
Lemma third_invalid_digit_falls_back_from_memory :
  (serveAll Sample.threeWrongDigits Sample.memoryOnly).1
  = [Twiml [Gather "/webhook/ivr-selection?callSid=CA1" 10
              "Press 1 for the front desk, 2 for the night desk.";
            Redirect "/webhook/ivr-timeout?callSid=CA1"];
     Sample.retry; Sample.retry; Sample.fallback].
Proof. vm_compute. reflexivity. Qed.

(** Once [call_sessions] holds a row for a call, no webhook changes it:
    every later write is an [insert] on the same [call_sid]. *)
Lemma row_survives_saveSession sid s st k s0 :
  call_sessions (db st) !! k = Some s0 →
  call_sessions (db (saveSession sid s st)) !! k = Some s0.
Proof.
  intros Hrow. simpl. unfold storeCallSession.
  destruct (db_available (db st)); [| exact Hrow].
  destruct (call_sessions (db st) !! sid) eqn:Hsid; [exact Hrow |].
  simpl. rewrite lookup_insert_ne; [exact Hrow |].
  intros ->. congruence.
Qed.

Lemma availability_survives_saveSession sid s st :
  db_available (db (saveSession sid s st)) = db_available (db st).
Proof.
  simpl. unfold storeCallSession.
  destruct (db_available (db st)) eqn:Hup; [| exact Hup].
  destruct (call_sessions (db st) !! sid); [exact Hup | exact Hup].
Qed.

(** With the database reachable, an invalid digit leaves the row, and so
    the count the next request reads, as it was. *)
Lemma invalid_digit_leaves_row req st cs :
  let sid := Js.or_str (query_callSid req) (CallSid req) in
  db_available (db st) = true →
  call_sessions (db st) !! sid = Some cs →
  let st' := (webhook_ivr_selection req st).2 in
  db_available (db st') = true
  ∧ call_sessions (db st') !! sid = Some cs
  ∧ lookupSession sid st' = Some cs.
Proof.
  intros sid Hup Hrow. cbv zeta.
  assert (Hlook : lookupSession sid st = Some cs).
  { unfold lookupSession, getCallSession. rewrite Hup, Hrow. reflexivity. }
  assert (Hgoal : ∀ st1,
             db_available (db st1) = true →
             call_sessions (db st1) !! sid = Some cs →
             db_available (db st1) = true
             ∧ call_sessions (db st1) !! sid = Some cs
             ∧ lookupSession sid st1 = Some cs).
  { intros st1 H1 H2. repeat split; try assumption.
    unfold lookupSession, getCallSession. rewrite H1, H2. reflexivity. }
  assert (Hsave : ∀ s,
             db_available (db (saveSession sid s st)) = true
             ∧ call_sessions (db (saveSession sid s st)) !! sid = Some cs).
  { intros s. split.
    - rewrite availability_survives_saveSession. exact Hup.
    - apply row_survives_saveSession. exact Hrow. }
  unfold webhook_ivr_selection. fold sid. rewrite Hlook.
  destruct (ivrMenu (clientConfig cs)) as [menu |]; [| apply Hgoal; assumption].
  destruct (findOption (Digits req) (ivr_options menu)) as [o |].
  - unfold applyOption.
    repeat match goal with
           | |- context [if ?b then _ else _] => destruct b
           | |- context [match findAgent ?i ?l with _ => _ end] =>
               destruct (findAgent i l)
           end; cbn [fst snd];
      first [apply Hgoal; apply Hsave | apply Hgoal; assumption].
  - unfold invalidSelection.
    repeat match goal with
           | |- context [if ?b then _ else _] => destruct b
           | |- context [match agents ?c with _ => _ end] =>
               destruct (agents c)
           end; cbn [fst snd];
      first [apply Hgoal; apply Hsave | apply Hgoal; assumption].
Qed.

(** C2, at the failing input: the database is reachable, the first
    webhook has inserted the session row with [attempts = 0], and the
    menu allows three attempts.  Each of three consecutive invalid digits
    is answered with the retry prompt; the third does not fall back to
    the first agent, and the count the next request will read is still
    [0].  The write of the updated session is an [insert] that the
    [UNIQUE] [call_sid] rejects, and lookups prefer the database row. *)
Theorem third_invalid_digit_reprompts :
  let st0 := Sample.start (Sample.database true) in
  (serveAll Sample.threeWrongDigits st0).1
  = [Twiml [Gather "/webhook/ivr-selection?callSid=CA1" 10
              "Press 1 for the front desk, 2 for the night desk.";
            Redirect "/webhook/ivr-timeout?callSid=CA1"];
     Sample.retry; Sample.retry; Sample.retry]
  ∧ ¬ connects "CA1" Sample.retry
  ∧ attemptsSeen "CA1" (serveAll Sample.threeWrongDigits st0).2 = Some 0.
Proof.
  cbv zeta. split; [| split].
  - vm_compute. reflexivity.
  - simpl. intros [H | [H | []]]; discriminate H.
  - vm_compute. reflexivity.
Qed.

(** The same for any number of invalid digits: while the row's count is
    below the limit, no submission ever falls back. *)
Lemma invalid_digits_never_reach_limit reqs : ∀ st sid cs menu ctx,
  db_available (db st) = true →
  call_sessions (db st) !! sid = Some cs →
  ivrMenu (clientConfig cs) = Some menu →
  ivrContext cs = Some ctx →
  (Js.or_num (max_attempts (menu_row menu)) 3
   <=? Js.or_num (attempts ctx) 0 + 1) = false →
  Forall (fun req => Js.or_str (query_callSid req) (CallSid req) = sid
                     ∧ findOption (Digits req) (ivr_options menu) = None)
         reqs →
  Forall (prompts (retryPrompt menu))
         (serveAll (List.map IvrSelection reqs) st).1.
Proof.
  induction reqs as [| req rest IH]; intros st sid cs menu ctx Hup Hrow Hm Hc Hlim Hall.
  - constructor.
  - inversion Hall as [| ? ? [Hsid Hnone] Hrest]; subst.
    cbn [List.map serveAll serve].
    destruct (webhook_ivr_selection req st) as [r st1] eqn:Hstep.
    destruct (serveAll (List.map IvrSelection rest) st1) as [rs st2] eqn:Hrun.
    cbn [fst]. constructor.
    + assert (Hlook : lookupSession (Js.or_str (query_callSid req) (CallSid req)) st
                      = Some cs).
      { unfold lookupSession, getCallSession. rewrite Hup, Hrow. reflexivity. }
      pose proof (invalid_digit_step req st cs menu ctx Hlook Hm Hc Hnone) as H.
      cbv zeta in H. rewrite Hlim, Hstep in H. exact (proj1 H).
    + destruct (invalid_digit_leaves_row req st cs Hup Hrow) as (Hup1 & Hrow1 & _).
      rewrite Hstep in Hup1, Hrow1. cbn [snd] in Hup1, Hrow1.
      specialize (IH st1 _ cs menu ctx Hup1 Hrow1 Hm Hc Hlim Hrest).
      rewrite Hrun in IH. exact IH.
Qed.

(** *** Time-based routing *)

(** The comparison itself is inclusive at both ends: on a listed day,
    with times that parse, the call is in business hours exactly when
    the local minute of the day lies between the opening and the closing
    minute. *)
Lemma isBusinessHours_inclusive a d t cur opening closing :
  minutesOfDay t = Some cur →
  minutesOfDay (Js.or_str (business_hours_start a) "09:00") = Some opening →
  minutesOfDay (Js.or_str (business_hours_end a) "17:00") = Some closing →
  isBusinessHours (Some a) (Some d) t = true
  ↔ In d (default [1; 2; 3; 4; 5] (business_days a))
    ∧ opening <= cur <= closing.
Proof.
  intros Ht Ho Hc. unfold isBusinessHours, includesDay, businessDaysOf.
  cbn [mbind option_bind]. rewrite Ht, Ho, Hc. cbn [Js.geq Js.leq].
  destruct (existsb (Z.eqb d) (default [1; 2; 3; 4; 5] (business_days a)))
    eqn:Hday.
  - apply existsb_exists in Hday as (x & Hin & Hx).
    apply Z.eqb_eq in Hx. subst x.
    rewrite andb_true_iff, !Z.leb_le. tauto.
  - split; [discriminate |].
    intros [Hin _]. exfalso.
    assert (existsb (Z.eqb d) (default [1; 2; 3; 4; 5] (business_days a)) = true).
    { apply existsb_exists. exists d. split; [exact Hin | apply Z.eqb_refl]. }
    congruence.
Qed.

(** Given the English day name, the selection is the one the
    specification lists for business days 1 to 5 and hours 09:00 to
    17:00. *)
Lemma schedule_on_day_names :
  let l := [Sample.A1; Sample.A2] in
  selectByTime l "Monday" "09:00" = Some Sample.A1
  ∧ selectByTime l "Monday" "17:00" = Some Sample.A1
  ∧ selectByTime l "Monday" "17:01" = Some Sample.A2
  ∧ selectByTime l "Saturday" "10:00" = Some Sample.A2.
Proof. repeat split; reflexivity. Qed.

(** A day string that is not one of the seven names is in no set of
    business days, so the after-hours candidate is selected. *)
Lemma unnamed_day_is_after_hours l clientDay clientTime :
  dayMap clientDay = None →
  selectByTime l clientDay clientTime = (pickAgents l).2.
Proof.
  intros Hd. unfold selectByTime.
  destruct (pickAgents l) as [b a]. unfold isBusinessHours.
  rewrite Hd. reflexivity.
Qed.

(** The formatter for the day of week cannot be built with
    [weekday: 'numeric']. *)
Lemma weekday_numeric_is_rejected w :
  Intl.formatWeekday "numeric" w = inl Js.RangeError.
Proof. reflexivity. Qed.

(** So the handler raises before it selects an agent, for every tenant
    and at every time, and leaves the stores untouched. *)
Lemma time_based_routing_raises clock req cfg st :
  handleTimeBasedRouting clock req cfg st = (Unhandled Js.RangeError, st).
Proof. reflexivity. Qed.

(** C3, at the failing input: a [time_based] tenant with business days
    1 to 5 and hours 09:00 to 17:00 is called on Monday at 09:00 local
    time.  The specification selects the business-hours agent [A1]; the
    webhook raises a [RangeError], connects nobody and stores no
    session. *)
Theorem monday_morning_call_is_not_routed :
  let clock := Sample.clockAt 1000 1 9 0 in
  let req := Sample.request "+15550100" None in
  let st := Sample.start Sample.timedDatabase in
  (routingStrategy <$> resolved (getClientConfigByPhoneNumber 1000 (db st) ∅
                                   "+15550100")) = Some "time_based"
  ∧ (webhook_voice clock req st).1 = Unhandled Js.RangeError
  ∧ ¬ connects "CA1" (webhook_voice clock req st).1
  ∧ lookupSession "CA1" (webhook_voice clock req st).2 = None
  ∧ selectByTime [Sample.A1; Sample.A2] "Monday"
      (Intl.formatHourMinute (wall clock "America/New_York"))
    = Some Sample.A1.
Proof.
  cbv zeta.
  assert (Hr : (webhook_voice (Sample.clockAt 1000 1 9 0)
                  (Sample.request "+15550100" None)
                  (Sample.start Sample.timedDatabase)).1
               = Unhandled Js.RangeError) by (vm_compute; reflexivity).
  split; [| split; [| split; [| split]]].
  - vm_compute. reflexivity.
  - exact Hr.
  - rewrite Hr. simpl. tauto.
  - vm_compute. reflexivity.
  - vm_compute. reflexivity.
Qed.

(** *** Selected agent and IVR context *)

Lemma same_stores_refl st : same_stores st st.
Proof. split; reflexivity. Qed.

Lemma same_stores_stored a b k v : same_stores a b → stored a k v → stored b k v.
Proof. intros [Hd Hm]. unfold stored. rewrite Hd, Hm. auto. Qed.

Ltac no_connect :=
  simpl; intros ? ?;
  repeat match goal with
         | H : _ ∨ _ |- _ => destruct H
         | H : False |- _ => destruct H
         end; discriminate.

Ltac only_connect :=
  simpl; intros ? ?;
  repeat match goal with
         | H : _ ∨ _ |- _ => destruct H
         | H : False |- _ => destruct H
         end; try discriminate;
  symmetry; apply streamTo_inj; assumption.

Ltac outcome_none st :=
  apply NoWrite; [assumption || apply same_stores_refl | no_connect].

Ltac outcome_selected :=
  eapply WroteSelection;
  [assumption || apply same_stores_refl | reflexivity | reflexivity
  | only_connect].

Lemma connectDefault_outcome sorry clock req cfg st st0 :
  same_stores st st0 →
  Outcome st0 (connectDefault sorry clock req cfg st).
Proof.
  intros Hs. unfold connectDefault.
  destruct (agents cfg) as [| a rest]; [outcome_none st | outcome_selected].
Qed.

Lemma connectAgent_outcome clock req cfg a st st0 :
  same_stores st st0 →
  Outcome st0 (connectAgent clock req cfg a st).
Proof. intros Hs. unfold connectAgent. outcome_selected. Qed.

Lemma handleIVRRouting_outcome clock req cfg st st0 :
  same_stores st st0 →
  Outcome st0 (handleIVRRouting clock req cfg st).
Proof.
  intros Hs. unfold handleIVRRouting.
  destruct (ivrMenu cfg) as [menu |].
  - apply WroteMenu; [exact Hs | reflexivity | no_connect].
  - apply connectDefault_outcome. exact Hs.
Qed.

Lemma handleExternalIntegration_outcome clock req cfg st st0 :
  same_stores st st0 →
  Outcome st0 (handleExternalIntegration clock req cfg st).
Proof.
  intros Hs. unfold handleExternalIntegration.
  destruct (externalIntegrations cfg) as [| i rest].
  - apply connectDefault_outcome. exact Hs.
  - repeat match goal with
           | |- context [if ?b then _ else _] => destruct b
           | |- context [match findAgent ?i ?l with _ => _ end] =>
               destruct (findAgent i l)
           end;
      first [apply connectAgent_outcome; exact Hs | outcome_none st].
Qed.

Lemma handleTimeBasedRouting_outcome clock req cfg st st0 :
  same_stores st st0 →
  Outcome st0 (handleTimeBasedRouting clock req cfg st).
Proof.
  intros Hs. rewrite time_based_routing_raises.
  apply NoWrite; [exact Hs | simpl; tauto].
Qed.

Lemma webhook_voice_outcome clock req st :
  Outcome st (webhook_voice clock req st).
Proof.
  unfold webhook_voice.
  set (r := getClientConfigByPhoneNumber _ _ _ _).
  set (st1 := {| db := db st; callSessionStore := callSessionStore st;
                 clientConfigCache := cache_after r |}).
  assert (Hs : same_stores st1 st) by (split; reflexivity).
  destruct (resolved r) as [cfg |]; [| outcome_none st1].
  destruct (Js.truthy_str _).
  - unfold directRoute.
    destruct (findAgent _ _) as [a |]; [| outcome_none st1].
    destruct (recordingEnabled cfg); outcome_selected.
  - unfold dispatchStrategy.
    repeat match goal with
           | |- context [if ?b then _ else _] => destruct b
           end.
    + apply handleIVRRouting_outcome. exact Hs.
    + apply handleExternalIntegration_outcome. exact Hs.
    + apply handleTimeBasedRouting_outcome. exact Hs.
    + apply connectDefault_outcome. exact Hs.
Qed.

Lemma webhook_ivr_selection_outcome req st :
  Outcome st (webhook_ivr_selection req st).
Proof.
  unfold webhook_ivr_selection.
  set (sid := Js.or_str (query_callSid req) (CallSid req)).
  destruct (lookupSession sid st) as [cs |] eqn:Hlook; [| outcome_none st].
  destruct (ivrMenu (clientConfig cs)) as [menu |];
    [| apply NoWrite; [apply same_stores_refl | simpl; tauto]].
  destruct (findOption (Digits req) (ivr_options menu)) as [o |].
  - unfold applyOption.
    repeat match goal with
           | |- context [if ?b then _ else _] => destruct b
           | |- context [match findAgent ?i ?l with _ => _ end] =>
               destruct (findAgent i l)
           end;
      first [outcome_selected | outcome_none st].
  - unfold invalidSelection.
    destruct (_ <=? _).
    + destruct (agents (clientConfig cs)) as [| a rest];
        [outcome_none st | outcome_selected].
    + eapply WroteRetry;
        [apply same_stores_refl | exact Hlook | reflexivity | no_connect].
Qed.

Lemma webhook_ivr_timeout_outcome req st :
  Outcome st (webhook_ivr_timeout req st).
Proof.
  unfold webhook_ivr_timeout.
  destruct (query_callSid req) as [sid |]; [| outcome_none st].
  destruct (lookupSession sid st) as [cs |]; [| outcome_none st].
  destruct (agents (clientConfig cs)) as [| a rest];
    [outcome_none st | outcome_selected].
Qed.

Lemma serve_outcome op st : Outcome st (serve op st).
Proof.
  destruct op; simpl.
  - apply webhook_voice_outcome.
  - apply webhook_ivr_selection_outcome.
  - apply webhook_ivr_timeout_outcome.
Qed.

(** The three operations that select an agent after the first webhook:
    each writes the chosen agent and a cleared IVR context in one session
    object. *)
Lemma digit_match_selects req st cs menu o a :
  let sid := Js.or_str (query_callSid req) (CallSid req) in
  lookupSession sid st = Some cs →
  ivrMenu (clientConfig cs) = Some menu →
  findOption (Digits req) (ivr_options menu) = Some o →
  action_type o = "agent" →
  findAgent (option_agent_id o) (agents (clientConfig cs)) = Some a →
  webhook_ivr_selection req st
  = (Twiml (connectTo sid a), saveSession sid (withSelectedAgent cs a) st).
Proof.
  intros sid Hs Hm Hf Ha Hag. unfold webhook_ivr_selection. fold sid.
  rewrite Hs, Hm, Hf. unfold applyOption. rewrite Ha, Hag. reflexivity.
Qed.

Lemma timeout_selects req st sid cs a rest :
  query_callSid req = Some sid →
  lookupSession sid st = Some cs →
  agents (clientConfig cs) = a :: rest →
  (webhook_ivr_timeout req st).2 = saveSession sid (withSelectedAgent cs a) st.
Proof.
  intros Hq Hs Ha. unfold webhook_ivr_timeout. rewrite Hq, Hs, Ha. reflexivity.
Qed.

Lemma withSelectedAgent_clears s a :
  selectedAgent (withSelectedAgent s a) = Some a
  ∧ ivrContext (withSelectedAgent s a) = None.
Proof. split; reflexivity. Qed.

(** Across the voice webhook, the IVR selection webhook and the IVR
    timeout webhook, a stored session has at most one selected agent, and
    a session that an operation leaves in either store is one that was
    there before, or has no IVR context, or has no selected agent, or
    carries the selected agent of the session the operation looked up.
    Whenever the reply connects the call, the session written to the
    in-memory map has an agent selected and its IVR context cleared.
    This says nothing of what a later lookup returns: see
    [row_outlives_requests]. *)
Lemma session_objects_are_well_formed op st :
  let r := (serve op st).1 in
  let st' := (serve op st).2 in
  (∀ sid s',
     stored st' sid s' →
     (∀ a1 a2, selectedAgent s' = Some a1 → selectedAgent s' = Some a2 → a1 = a2)
     ∧ (stored st sid s'
        ∨ ivrContext s' = None
        ∨ selectedAgent s' = None
        ∨ ∃ old, lookupSession sid st = Some old
                 ∧ selectedAgent s' = selectedAgent old))
  ∧ (∀ sid,
       connects sid r →
       ∃ s a, callSessionStore st' !! sid = Some s
              ∧ selectedAgent s = Some a
              ∧ ivrContext s = None).
Proof.
  cbv zeta. pose proof (serve_outcome op st) as Hout.
  destruct (serve op st) as [r st']. cbn [fst snd].
  inversion Hout as [r0 st0 Hsame Hno
                    | r0 sid0 s0 st1 Hsame Hnone Hno
                    | r0 sid0 s0 a0 st1 Hsame Hsel Hctx Honly
                    | r0 sid0 s0 old st1 Hsame Hlook Hkeep Hno]; subst.
  - split.
    + intros sid s' Hst. split; [congruence |].
      left. exact (same_stores_stored _ _ _ _ Hsame Hst).
    + intros sid Hc. destruct (Hno sid Hc).
  - split.
    + intros sid s' Hst. split; [congruence |].
      destruct (stored_saveSession _ _ _ _ _ Hst) as [Hold | [-> ->]].
      * left. exact (same_stores_stored _ _ _ _ Hsame Hold).
      * right. right. left. exact Hnone.
    + intros sid Hc. destruct (Hno sid Hc).
  - split.
    + intros sid s' Hst. split; [congruence |].
      destruct (stored_saveSession _ _ _ _ _ Hst) as [Hold | [-> ->]].
      * left. exact (same_stores_stored _ _ _ _ Hsame Hold).
      * right. left. exact Hctx.
    + intros sid Hc. rewrite (Honly sid Hc).
      exists s0, a0. split; [apply saveSession_memory | auto].
  - split.
    + intros sid s' Hst. split; [congruence |].
      destruct (stored_saveSession _ _ _ _ _ Hst) as [Hold | [-> ->]].
      * left. exact (same_stores_stored _ _ _ _ Hsame Hold).
      * right. right. right. exists old. auto.
    + intros sid Hc. destruct (Hno sid Hc).
Qed.

(** With the database reachable, the row of a call outlives every
    request: each later write is an [insert] on the same [call_sid], and
    the next lookup returns the row. *)
Lemma row_outlives_requests op st sid cs :
  db_available (db st) = true →
  call_sessions (db st) !! sid = Some cs →
  db_available (db (serve op st).2) = true
  ∧ call_sessions (db (serve op st).2) !! sid = Some cs
  ∧ lookupSession sid (serve op st).2 = Some cs.
Proof.
  intros Hup Hrow.
  assert (Hgoal : ∀ st', db_available (db st') = true →
                         call_sessions (db st') !! sid = Some cs →
                         db_available (db st') = true
                         ∧ call_sessions (db st') !! sid = Some cs
                         ∧ lookupSession sid st' = Some cs).
  { intros st' Hup' Hrow'. split; [exact Hup' | split; [exact Hrow' |]].
    unfold lookupSession, getCallSession. rewrite Hup', Hrow'. reflexivity. }
  pose proof (serve_outcome op st) as Hout.
  destruct (serve op st) as [r st']. cbn [snd].
  inversion Hout as [r0 st0 [Hd _] _
                    | r0 sid0 s0 st1 [Hd _] _ _
                    | r0 sid0 s0 a0 st1 [Hd _] _ _ _
                    | r0 sid0 s0 old st1 [Hd _] _ _ _]; subst;
    apply Hgoal;
    rewrite ?availability_survives_saveSession, ?Hd; try exact Hup;
    try (apply row_survives_saveSession); rewrite ?Hd; exact Hrow.
Qed.

(** C7, at the failing input: the database is reachable and the first
    webhook has inserted the session row of the call, with IVR progress
    pending and no agent.  A valid digit, and likewise the menu timeout,
    is answered by connecting the call to [A1], and the session object
    the handler writes carries [A1] with the IVR context cleared; but the
    write to [call_sessions] is an [insert] that the [UNIQUE] [call_sid]
    rejects, and lookups prefer the database row: the session the next
    lookup returns has no selected agent and its IVR context is still
    pending, with [attempts = 0]. *)
Theorem selection_is_lost_behind_the_row :
  let st0 := Sample.start (Sample.database true) in
  let pressOne := IvrSelection (Sample.request "+15550100" (Some "1")) in
  let timeout := IvrTimeout (Sample.request "+15550100" None) in
  let pending := Some {| menuId := Some "menu-1"; attempts := Some 0 |} in
  Forall
    (fun op =>
       let out := serveAll [Sample.firstWebhook; op] st0 in
       (∃ r0 r, out.1 = [r0; r] ∧ connects "CA1" r)
       ∧ (selectedAgent <$> callSessionStore out.2 !! "CA1")
         = Some (Some Sample.A1)
       ∧ (ivrContext <$> callSessionStore out.2 !! "CA1") = Some None
       ∧ (selectedAgent <$> lookupSession "CA1" out.2) = Some None
       ∧ (ivrContext <$> lookupSession "CA1" out.2) = Some pending
       ∧ attemptsSeen "CA1" out.2 = Some 0)
    [pressOne; timeout].
Proof.
  cbv zeta. constructor; [| constructor; [| constructor]].
  - split; [| vm_compute; repeat split].
    vm_compute. eexists _, _. split; [reflexivity |]. left. reflexivity.
  - split; [| vm_compute; repeat split].
    vm_compute. eexists _, _. split; [reflexivity |]. left. reflexivity.
Qed.

End RouterFacts.

(** ** Properties of the duplex relay *)

Module RelayFacts.

Import Relay.

Section Facts.

Variable toPcm : string → Js.Error + string.
Variable toMuLaw : string → Js.Error + string.

Abbreviation step := (Relay.step toPcm toMuLaw).
Abbreviation run := (Relay.run toPcm toMuLaw).

(** *** Rounding *)

(** [ceil_div n d] is the least integer whose multiple of [d] reaches [n]. *)
Lemma ceil_div_spec n d :
  0 < d → d * (Js.ceil_div n d - 1) < n <= d * Js.ceil_div n d.
Proof.
  intros Hd. unfold Js.ceil_div.
  pose proof (Z.div_mod (- n) d ltac:(lia)) as Hdm.
  pose proof (Z.mod_pos_bound (- n) d Hd) as Hb.
  nia.
Qed.

Lemma ceil_div_least n d m : 0 < d → n <= d * m → Js.ceil_div n d <= m.
Proof.
  intros Hd Hm. pose proof (ceil_div_spec n d Hd). nia.
Qed.

(** [round_div n d] is within half a unit of [n / d], halves going up. *)
Lemma round_div_spec n d :
  0 < d → 2 * d * Js.round_div n d - d <= 2 * n < 2 * d * Js.round_div n d + d.
Proof.
  intros Hd. unfold Js.round_div.
  pose proof (Z.div_mod (2 * n + d) (2 * d) ltac:(lia)) as Hdm.
  pose proof (Z.mod_pos_bound (2 * n + d) (2 * d) ltac:(lia)) as Hb.
  nia.
Qed.

(** *** What each handler emits *)

Lemma forwardAudio_sink sid parts :
  finalizations (forwardAudio toMuLaw sid parts) = []
  ∧ usageIncrements (forwardAudio toMuLaw sid parts) = []
  ∧ directives (forwardAudio toMuLaw sid parts) = []
  ∧ existsb isTeardown (forwardAudio toMuLaw sid parts) = false.
Proof.
  induction parts as [| p rest IH]; simpl; [auto |].
  destruct (_ && _); [| exact IH].
  destruct (toMuLaw _); simpl; auto.
Qed.

Lemma onMessage_effects s now m :
  let fx := (onMessage toPcm s now m).2 in
  finalizations fx = [] ∧ usageIncrements fx = [] ∧ directives fx = []
  ∧ existsb isTeardown fx = false.
Proof.
  unfold onMessage, handleTwilioMessage.
  destruct m as [| sid | payload | | name |]; simpl; auto.
  destruct (Js.truthy_str payload); simpl.
  - destruct (toPcm _); simpl;
      destruct (_ || _); simpl; auto.
  - auto.
Qed.

Lemma onMessage_callLogId s now m :
  callLogId (onMessage toPcm s now m).1 = callLogId s.
Proof.
  unfold onMessage, handleTwilioMessage.
  destruct m as [| sid | payload | | name |]; simpl; auto.
  destruct (Js.truthy_str payload); simpl.
  - destruct (toPcm _); simpl; destruct (_ || _); reflexivity.
  - reflexivity.
Qed.

(** No handler changes the call log id of the socket. *)
Lemma step_callLogId s e : callLogId (step s e).1 = callLogId s.
Proof.
  destruct e; simpl; try reflexivity. apply onMessage_callLogId.
Qed.

(** Only the telephony close handler writes to the call record sink. *)
Lemma step_finalizations s e :
  isTwilioClose e = false → finalizations (step s e).2 = [].
Proof.
  destruct e; simpl; intros H; try discriminate H; try reflexivity.
  - apply onMessage_effects.
  - apply forwardAudio_sink.
Qed.

Lemma close_finalizations s t :
  finalizations (step s (TwilioClose t)).2
  = match callLogId s with
    | Some id =>
        [(id, {| upd_status := "completed";
                 upd_ended_at := t;
                 upd_duration_seconds := durationSeconds s t;
                 upd_transcript := transcript s |})]
    | None => []
    end.
Proof.
  simpl. unfold onClose. simpl.
  destruct (callLogId s); [| reflexivity].
  destruct (clientInfo s); reflexivity.
Qed.

Lemma finalizations_app a b :
  finalizations (a ++ b) = (finalizations a ++ finalizations b)%list.
Proof. unfold finalizations. apply omap_app. Qed.

Lemma directives_app a b :
  directives (a ++ b) = (directives a ++ directives b)%list.
Proof. unfold directives. apply omap_app. Qed.

Lemma run_app s l1 l2 :
  run s (l1 ++ l2)
  = ((run (run s l1).1 l2).1, ((run s l1).2 ++ (run (run s l1).1 l2).2)%list).
Proof.
  revert s. induction l1 as [| e l1 IH]; intros s.
  - simpl. destruct (run s l2). reflexivity.
  - simpl. destruct (step s e) as [s1 fx1]. rewrite IH.
    destruct (run s1 l1) as [s2 fx2]. simpl.
    destruct (run s2 l2) as [s3 fx3]. simpl.
    rewrite app_assoc. reflexivity.
Qed.

Lemma run_callLogId events : ∀ s, callLogId (run s events).1 = callLogId s.
Proof.
  induction events as [| e rest IH]; intros s; [reflexivity |].
  simpl. pose proof (step_callLogId s e) as Hs.
  destruct (step s e) as [s1 fx1]. specialize (IH s1).
  destruct (run s1 rest) as [s2 fx2]. simpl in *. congruence.
Qed.

Lemma run_without_close events : ∀ s,
  Forall (fun e => isTwilioClose e = false) events →
  finalizations (run s events).2 = [].
Proof.
  induction events as [| e rest IH]; intros s Hall; [reflexivity |].
  inversion Hall as [| ? ? He Hrest]; subst. simpl.
  pose proof (step_finalizations s e He) as Hs.
  destruct (step s e) as [s1 fx1]. specialize (IH s1 Hrest).
  destruct (run s1 rest) as [s2 fx2]. simpl in *.
  rewrite finalizations_app, Hs, IH. reflexivity.
Qed.

Lemma step_directives s e : directives (step s e).2 = [].
Proof.
  destruct e; simpl; try reflexivity.
  - apply onMessage_effects.
  - destruct (callLogId s); [| reflexivity].
    destruct (clientInfo s); reflexivity.
  - apply forwardAudio_sink.
Qed.

Lemma step_never_tears_down s e : existsb isTeardown (step s e).2 = false.
Proof.
  destruct e; simpl; try reflexivity.
  - apply onMessage_effects.
  - destruct (callLogId s); [| reflexivity].
    destruct (clientInfo s); reflexivity.
  - apply forwardAudio_sink.
Qed.

(** *** Usage *)

(** C4, amended: when the telephony side closes, the minutes reported to
    the sink for a call that has a call record and a client profile
    attached are the ceiling of [durationSeconds / 60], reported once,
    for that profile; no usage is reported otherwise.  The ceiling is the least
    number of whole minutes that covers the duration: 61 seconds are 2
    minutes and 60 seconds are exactly 1. *)
Theorem usage_increment_is_ceiling s endTime :
  let d := durationSeconds s endTime in
  usageIncrements (step s (TwilioClose endTime)).2
  = match callLogId s, clientInfo s with
    | Some _, Some c => [(clientId c, Js.ceil_div d 60)]
    | _, _ => []
    end
  ∧ 60 * (Js.ceil_div d 60 - 1) < d <= 60 * Js.ceil_div d 60
  ∧ Js.ceil_div 61 60 = 2
  ∧ Js.ceil_div 60 60 = 1.
Proof.
  cbv zeta. split; [| split; [| split]].
  - simpl. destruct (callLogId s); [| reflexivity].
    destruct (clientInfo s); reflexivity.
  - apply ceil_div_spec. lia.
  - reflexivity.
  - reflexivity.
Qed.

(** *** Finalization *)

(** C5: a call that has created a call record is finalized exactly once.
    Whatever happens on the two connections before and after the
    telephony side closes, in particular whether the speech endpoint
    closed before or after it, the sink receives one update for the
    call's record, carrying the status [completed], the end time, the
    duration and the transcript at the close. *)
Theorem one_finalization_per_call s id before t after :
  callLogId s = Some id →
  Forall (fun e => isTwilioClose e = false) before →
  Forall (fun e => isTwilioClose e = false) after →
  let atClose := (run s before).1 in
  finalizations (run s (before ++ TwilioClose t :: after)).2
  = [(id, {| upd_status := "completed";
             upd_ended_at := t;
             upd_duration_seconds := durationSeconds atClose t;
             upd_transcript := transcript atClose |})].
Proof.
  intros Hid Hb Ha. cbv zeta.
  rewrite run_app. cbn [snd].
  rewrite finalizations_app, (run_without_close before s Hb).
  pose proof (run_callLogId before s) as Hkeep. rewrite Hid in Hkeep.
  set (s1 := (run s before).1) in *.
  change (run s1 (TwilioClose t :: after))
    with (let '(s2, fx1) := step s1 (TwilioClose t) in
          let '(s3, fx2) := run s2 after in (s3, (fx1 ++ fx2)%list)).
  pose proof (close_finalizations s1 t) as Hc. rewrite Hkeep in Hc.
  destruct (step s1 (TwilioClose t)) as [s2 fx1].
  pose proof (run_without_close after s2 Ha) as Hafter.
  destruct (run s2 after) as [s3 fx2]. cbn [snd] in *.
  rewrite finalizations_app, Hc, Hafter. reflexivity.
Qed.

(** *** Speech-side disconnects *)

(** C8, amended: a close or an error of the speech-endpoint connection is
    logged and nothing else is done.  No event makes the relay close the
    telephony connection; the call is torn down from the telephony side
    only, whose close and whose [stop] message close the speech side. *)
Theorem speech_side_events_are_only_logged s :
  (step s GeminiClose).2 = [Log "Gemini Live client closed"]
  ∧ (step s GeminiError).2 = [Log "Gemini Live client error"]
  ∧ (∀ e, existsb isTeardown (step s e).2 = false)
  ∧ (∀ t, In GeminiCloseCall (step s (TwilioClose t)).2)
  ∧ (∀ t, In GeminiCloseCall (step s (TwilioMessageIn t Stop)).2).
Proof.
  split; [reflexivity | split; [reflexivity | split; [| split]]].
  - intros e. apply step_never_tears_down.
  - intros t. simpl. right. apply in_or_app. right. left. reflexivity.
  - intros t. simpl. right. left. reflexivity.
Qed.

(** *** Opening greeting *)

(** C9, at the failing input: the readiness handler installed on the
    per-call client writes one console line.  In no sequence of events
    does the relay send the greeting directive to the speech endpoint,
    although the timer body of [server.geminiLive.onReady] would send it,
    with [turn_complete] set, on a socket whose speech side is ready. *)
Theorem greeting_directive_is_never_sent s events :
  (step s GeminiReady).2 = [Log "Gemini Live client connected and ready"]
  ∧ directives (run s (GeminiReady :: events)).2 = []
  ∧ directives (greetingTask (step s GeminiReady).1) = [initialMessage]
  ∧ turn_complete initialMessage = true.
Proof.
  split; [reflexivity | split; [| split; reflexivity]].
  generalize (GeminiReady :: events). clear events. intros events.
  revert s. induction events as [| e rest IH]; intros s; [reflexivity |].
  simpl. pose proof (step_directives s e) as Hs.
  destruct (step s e) as [s1 fx1]. specialize (IH s1).
  destruct (run s1 rest) as [s2 fx2]. cbn [snd] in *.
  rewrite directives_app, Hs, IH. reflexivity.
Qed.

End Facts.

(** C8, as stated, fails: when the speech endpoint closes, or errors, the
    relay does not close the telephony connection. *)
Lemma speech_close_leaves_telephony_open :
  ¬ (∀ toPcm toMuLaw s e,
       e = GeminiClose ∨ e = GeminiError →
       existsb isTeardown (Relay.step toPcm toMuLaw s e).2 = true).
Proof.
  intros H.
  specialize (H inr inr
                {| agentInfo := None; clientInfo := None; callSession := None;
                   geminiReady := true; twilioStreamSid := Some "CA1";
                   callStartTime := 0; transcript := ""; callLogId := None;
                   lastUserSpeech := None |}
                GeminiClose (or_introl eq_refl)).
  discriminate H.
Qed.

(** *** The session the relay attaches *)

(** A socket that carries a call log id carries the agent and the tenant
    profile too: the log is created only when both are attached. *)
Lemma call_record_implies_profile now callSid st id :
  callLogId (onConnection now callSid st).1 = Some id →
  ∃ a c, agentInfo (onConnection now callSid st).1 = Some a
         ∧ clientInfo (onConnection now callSid st).1 = Some c.
Proof.
  unfold onConnection.
  destruct (if Js.truthy_str (Some callSid) then Router.lookupSession callSid st
            else None) as [cs |].
  - destruct (selectedAgent cs) as [a |].
    + destruct (createCallLog _ _) as [log d]. cbn [fst]. simpl.
      intros _. eauto.
    + cbn [fst]. simpl. discriminate.
  - cbn [fst]. simpl. discriminate.
Qed.

(** After the caller has pressed a valid digit, the relay finds the
    selected agent when the sessions live in memory, and the row of the
    IVR entry, which has no agent, when the database is reachable. *)
Lemma relay_view_after_digit_match :
  let pressOne := Router.IvrSelection (Sample.request "+15550100" (Some "1")) in
  let inMemory := (Router.serveAll [Sample.firstWebhook; pressOne]
                     Sample.memoryOnly).2 in
  let inDatabase := (Router.serveAll [Sample.firstWebhook; pressOne]
                       (Sample.start (Sample.database true))).2 in
  agentInfo (onConnection 5000 "CA1" inMemory).1 = Some Sample.A1
  ∧ agentInfo (onConnection 5000 "CA1" inDatabase).1 = None
  ∧ callLogId (onConnection 5000 "CA1" inDatabase).1 = None.
Proof. cbv zeta. split; [| split]; vm_compute; reflexivity. Qed.

(** C4, as stated, fails: a profile attached to the call is not enough.
    The usage report sits inside [if (socket.callLogId)], and the call
    log is not created when the database is out of reach: the connection
    set up for such a call has its profile attached and reports
    nothing. *)
Lemma profile_without_record_is_not_billed :
  ¬ (∀ toPcm toMuLaw now callSid st endTime c,
       clientInfo (onConnection now callSid st).1 = Some c →
       usageIncrements
         (Relay.step toPcm toMuLaw (onConnection now callSid st).1
            (TwilioClose endTime)).2
       = [(clientId c,
           Js.ceil_div
             (durationSeconds (onConnection now callSid st).1 endTime) 60)]).
Proof.
  intros H.
  specialize (H inr inr 5000 "CA1"
                (Router.serveAll
                   [Sample.firstWebhook;
                    Router.IvrSelection (Sample.request "+15550100" (Some "1"))]
                   Sample.memoryOnly).2
                66000 Sample.config eq_refl).
  vm_compute in H. discriminate H.
Qed.

(** A billed call of the sample tenant, answered by [A1]. *)
Lemma usage_increment_is_ceiling_witness :
  let s := {| agentInfo := Some Sample.A1; clientInfo := Some Sample.config;
              callSession := None; geminiReady := true;
              twilioStreamSid := Some "CA1"; callStartTime := 0;
              transcript := ""; callLogId := Some 0;
              lastUserSpeech := None |} in
  usageIncrements (Relay.step inr inr s (TwilioClose 61000)).2 = [("tenant-1", 2)]
  ∧ usageIncrements (Relay.step inr inr s (TwilioClose 60000)).2 = [("tenant-1", 1)].
Proof.
  cbv zeta. split.
  - rewrite (proj1 (usage_increment_is_ceiling inr inr _ 61000)). reflexivity.
  - rewrite (proj1 (usage_increment_is_ceiling inr inr _ 60000)). reflexivity.
Defined.

(** The speech endpoint closes first in one call and last in the other. *)
Lemma one_finalization_per_call_witness :
  let s := {| agentInfo := Some Sample.A1; clientInfo := Some Sample.config;
              callSession := None; geminiReady := false;
              twilioStreamSid := Some "CA1"; callStartTime := 0;
              transcript := ""; callLogId := Some 7;
              lastUserSpeech := None |} in
  length (finalizations
            (Relay.run inr inr s [GeminiReady; GeminiClose; TwilioClose 61000]).2)
  = 1%nat
  ∧ length (finalizations
              (Relay.run inr inr s [GeminiReady; TwilioClose 61000; GeminiClose]).2)
    = 1%nat.
Proof.
  cbv zeta. split.
  - rewrite (one_finalization_per_call inr inr _ 7 [GeminiReady; GeminiClose]
               61000 []); [reflexivity | reflexivity | |].
    + repeat constructor.
    + constructor.
  - rewrite (one_finalization_per_call inr inr _ 7 [GeminiReady]
               61000 [GeminiClose]); [reflexivity | reflexivity | |].
    + repeat constructor.
    + repeat constructor.
Defined.

End RelayFacts.

(** ** Further properties of the configuration resolver *)

Module ResolverExtras.

Import Resolver.

Lemma fetch_queries db n : (fetchClientConfig db n).2 ≠ [].
Proof.
  unfold fetchClientConfig.
  destruct (query_phone db n) as [pd |]; [| discriminate].
  destruct (profiles_of pd); discriminate.
Qed.

(** A request the cache does not answer is served by the source of truth,
    against a cache that has no entry for the number and agrees with the
    old one elsewhere. *)
Lemma miss_goes_to_source now db cache n :
  fresh now cache n = false →
  ∃ cache0,
    getClientConfigByPhoneNumber now db cache n
    = resolveFromSource now db cache0 n
    ∧ cache0 !! n = None
    ∧ ∀ k, k ≠ n → cache0 !! k = cache !! k.
Proof.
  unfold fresh, getClientConfigByPhoneNumber.
  destruct (cache !! n) as [e |] eqn:He.
  - intros ->. exists (delete n cache). split; [reflexivity |].
    split; [apply lookup_delete_eq |].
    intros k Hk. apply lookup_delete_ne. congruence.
  - intros _. exists cache. auto.
Qed.

(** X1: a configuration compiled from the source of truth at [now] is
    what every request for the number gets during the next five minutes,
    without a query, whatever has happened to the database meanwhile;
    from five minutes on, the source of truth is queried again. *)
Theorem snapshot_served_until_expiry now db cache n c now' db' :
  fresh now cache n = false →
  resolved (getClientConfigByPhoneNumber now db cache n) = Some c →
  let cache1 := cache_after (getClientConfigByPhoneNumber now db cache n) in
  (now' < now + CACHE_TTL →
   getClientConfigByPhoneNumber now' db' cache1 n
   = {| resolved := Some c; cache_after := cache1; queries := [] |})
  ∧ (now + CACHE_TTL <= now' →
     queries (getClientConfigByPhoneNumber now' db' cache1 n) ≠ []).
Proof.
  intros Hmiss Hres. cbv zeta.
  destruct (miss_goes_to_source now db cache n Hmiss) as (cache0 & Heq & _ & _).
  rewrite Heq in *. unfold resolveFromSource in *.
  destruct (fetchClientConfig db n) as [[c' |] qs]; simpl in Hres;
    [| discriminate].
  injection Hres as ->. cbn [cache_after].
  split.
  - intros Hlt.
    apply (ResolverFacts.cache_hit now' db' _ n
             {| data := c; expiresAt := now + CACHE_TTL |}).
    + apply lookup_insert_eq.
    + exact Hlt.
  - intros Hge. unfold getClientConfigByPhoneNumber.
    rewrite lookup_insert_eq. cbn [expiresAt].
    destruct (Z.ltb_spec now' (now + CACHE_TTL)); [lia |].
    unfold resolveFromSource.
    pose proof (fetch_queries db' n) as Hq.
    destruct (fetchClientConfig db' n) as [[c' |] qs']; exact Hq.
Qed.

Lemma snapshot_served_until_expiry_witness :
  let first := getClientConfigByPhoneNumber 1000 (Sample.database true) ∅
                 "+15550100" in
  resolved (getClientConfigByPhoneNumber 300999 Sample.numbersRemoved
              (cache_after first) "+15550100") = Some Sample.config
  ∧ queries (getClientConfigByPhoneNumber 301000 Sample.numbersRemoved
               (cache_after first) "+15550100") ≠ [].
Proof.
  cbv zeta.
  destruct (snapshot_served_until_expiry 1000 (Sample.database true) ∅
              "+15550100" Sample.config 300999 Sample.numbersRemoved)
    as [Hhit _]; [reflexivity | reflexivity |].
  destruct (snapshot_served_until_expiry 1000 (Sample.database true) ∅
              "+15550100" Sample.config 301000 Sample.numbersRemoved)
    as [_ Hmiss]; [reflexivity | reflexivity |].
  split.
  - rewrite Hhit by (vm_compute; reflexivity). reflexivity.
  - apply Hmiss. vm_compute. discriminate.
Defined.

(** X2: a request that resolves to [null] leaves no cache entry for the
    number: failures are not cached and an expired entry is evicted, so
    the next request for the number goes to the source of truth. *)
Theorem not_found_is_not_cached now db cache n now' db' :
  resolved (getClientConfigByPhoneNumber now db cache n) = None →
  cache_after (getClientConfigByPhoneNumber now db cache n) !! n = None
  ∧ queries (getClientConfigByPhoneNumber now' db'
               (cache_after (getClientConfigByPhoneNumber now db cache n)) n)
    ≠ [].
Proof.
  intros Hnone.
  assert (Hmiss : fresh now cache n = false).
  { unfold fresh. revert Hnone. unfold getClientConfigByPhoneNumber.
    destruct (cache !! n) as [e |]; [| reflexivity].
    destruct (now <? expiresAt e); [discriminate | reflexivity]. }
  destruct (miss_goes_to_source now db cache n Hmiss) as (cache0 & Heq & H0 & _).
  rewrite Heq in *. unfold resolveFromSource in *.
  destruct (fetchClientConfig db n) as [[c' |] qs]; simpl in Hnone;
    [discriminate |].
  cbn [cache_after]. split; [exact H0 |].
  unfold getClientConfigByPhoneNumber. rewrite H0.
  unfold resolveFromSource.
  pose proof (fetch_queries db' n) as Hq.
  destruct (fetchClientConfig db' n) as [[c' |] qs']; exact Hq.
Qed.

Lemma not_found_is_not_cached_witness :
  cache_after (getClientConfigByPhoneNumber 300000 Sample.numbersRemoved
                 Sample.warmCache "+15550100") !! "+15550100" = None.
Proof.
  apply (not_found_is_not_cached 300000 Sample.numbersRemoved Sample.warmCache
           "+15550100" 0 Sample.numbersRemoved).
  reflexivity.
Defined.

(** X3: a request for one number never changes the cache entry of another
    number. *)
Theorem resolver_touches_only_its_key now db cache n k :
  k ≠ n →
  cache_after (getClientConfigByPhoneNumber now db cache n) !! k = cache !! k.
Proof.
  intros Hk. unfold getClientConfigByPhoneNumber.
  assert (Hsrc : ∀ cache0,
             cache_after (resolveFromSource now db cache0 n) !! k = cache0 !! k).
  { intros cache0. unfold resolveFromSource.
    destruct (fetchClientConfig db n) as [[c |] qs]; simpl; [| reflexivity].
    apply lookup_insert_ne. congruence. }
  destruct (cache !! n) as [e |].
  - destruct (now <? expiresAt e); [reflexivity |].
    rewrite Hsrc. apply lookup_delete_ne. congruence.
  - apply Hsrc.
Qed.

Lemma resolver_touches_only_its_key_witness :
  cache_after (getClientConfigByPhoneNumber 300000 (Sample.database true)
                 Sample.warmCache "+15550101") !! "+15550100"
  = Sample.warmCache !! "+15550100".
Proof.
  apply resolver_touches_only_its_key. discriminate.
Defined.




Lemma filter_Forall {A} (f : A → bool) (l : list A) :
  Forall (fun a => f a = true) (List.filter f l).
Proof.
  apply Forall_forall. intros a Ha. apply list_elem_of_In in Ha.
  apply filter_In in Ha. tauto.
Qed.

(** X4: when the cache does not answer, the resolver returns [null]
    exactly when the database cannot be reached, or the number is carried
    by no row or by more than one, or its single row points to no
    profile. *)
Theorem not_found_iff now db cache n :
  fresh now cache n = false →
  resolved (getClientConfigByPhoneNumber now db cache n) = None
  ↔ db_available db = false
    ∨ length (rowsFor db n) ≠ 1%nat
    ∨ ∃ r, rowsFor db n = [r] ∧ profileOf db r = None.
Proof.
  intros Hmiss.
  destruct (miss_goes_to_source now db cache n Hmiss) as (cache0 & -> & _ & _).
  assert (Hres : resolved (resolveFromSource now db cache0 n)
                 = (fetchClientConfig db n).1).
  { unfold resolveFromSource.
    destruct (fetchClientConfig db n) as [[c |] qs]; reflexivity. }
  rewrite Hres. unfold fetchClientConfig, query_phone.
  change (List.filter (fun r => String.eqb (phone_number r) n) (phone_numbers db))
    with (rowsFor db n).
  destruct (db_available db).
  - destruct (rowsFor db n) as [| r [| r' rest]]; cbn [single fst length].
    + split; [intros _; right; left; discriminate | reflexivity].
    + fold (profileOf db r). cbn [profiles_of].
      destruct (profileOf db r) as [p |] eqn:Hp; cbn [fst].
      * split; [discriminate |].
        intros [H | [H | (r0 & [= <-] & H)]];
          [discriminate H | exfalso; apply H; reflexivity | congruence].
      * split; [| reflexivity].
        intros _. right. right. exists r. auto.
    + split; [intros _; right; left; simpl; lia | reflexivity].
  - cbn [fst]. split; [intros _; left; reflexivity | reflexivity].
Qed.

Lemma not_found_iff_witness :
  resolved (getClientConfigByPhoneNumber 0 Sample.duplicatedNumber ∅ "+15550100")
  = None.
Proof.
  apply (not_found_iff 0 Sample.duplicatedNumber ∅ "+15550100"); [reflexivity |].
  right. left. vm_compute. discriminate.
Defined.






(** *** Properties every returned configuration inherits from the
    compilation *)

Section Inherited.

Variable P : ClientConfig → Prop.
Hypothesis compiled_P :
  ∀ db n c qs, fetchClientConfig db n = (Some c, qs) → P c.

Lemma resolver_inherits now db cache n :
  map_Forall (fun _ e => P (data e)) cache →
  map_Forall (fun _ e => P (data e))
             (cache_after (getClientConfigByPhoneNumber now db cache n))
  ∧ ∀ c, resolved (getClientConfigByPhoneNumber now db cache n) = Some c → P c.
Proof.
  intros Hc.
  assert (Hsrc : ∀ cache0,
             map_Forall (fun _ e => P (data e)) cache0 →
             map_Forall (fun _ e => P (data e))
                        (cache_after (resolveFromSource now db cache0 n))
             ∧ ∀ c, resolved (resolveFromSource now db cache0 n) = Some c → P c).
  { intros cache0 H0. unfold resolveFromSource.
    destruct (fetchClientConfig db n) as [[c |] qs] eqn:Hf; simpl.
    - pose proof (compiled_P _ _ _ _ Hf) as Hp. split.
      + apply map_Forall_insert_2; assumption.
      + intros c' [= <-]. exact Hp.
    - split; [exact H0 | discriminate]. }
  unfold getClientConfigByPhoneNumber.
  destruct (cache !! n) as [e |] eqn:He.
  - destruct (now <? expiresAt e).
    + simpl. split; [exact Hc |]. intros c [= <-]. exact (Hc _ _ He).
    + apply Hsrc. apply map_Forall_delete. exact Hc.
  - apply Hsrc. exact Hc.
Qed.

Lemma reachable_inherits cache :
  reachable cache → map_Forall (fun _ e => P (data e)) cache.
Proof.
  intros [history ->].
  assert (H : ∀ cache0, map_Forall (fun _ e => P (data e)) cache0 →
                        map_Forall (fun _ e => P (data e))
                                   (cache_after_calls cache0 history)).
  { induction history as [| call rest IH]; intros cache0 H0; [exact H0 |].
    simpl. apply IH. apply resolver_inherits. exact H0. }
  apply H. apply map_Forall_empty.
Qed.

Lemma returned_inherits now db cache n c :
  reachable cache →
  resolved (getClientConfigByPhoneNumber now db cache n) = Some c → P c.
Proof.
  intros Hr. apply resolver_inherits. apply reachable_inherits. exact Hr.
Qed.

End Inherited.

(** X6: no returned configuration has a zero concurrency limit, a zero
    monthly limit or an empty routing strategy: the defaults 5, 1000 and
    [single_number_ivr] replace a stored zero or empty string as well as
    an absent value. *)
Theorem defaults_replace_zero_and_empty now db cache n c :
  reachable cache →
  resolved (getClientConfigByPhoneNumber now db cache n) = Some c →
  maxConcurrentCalls c ≠ 0 ∧ minutesLimit c ≠ 0 ∧ routingStrategy c ≠ "".
Proof.
  apply (returned_inherits
           (fun c => maxConcurrentCalls c ≠ 0 ∧ minutesLimit c ≠ 0
                     ∧ routingStrategy c ≠ "")).
  clear. intros db n c qs. unfold fetchClientConfig.
  destruct (query_phone db n) as [pd |]; [| discriminate].
  destruct (profiles_of pd) as [p |]; [| discriminate].
  intros [= <- _]. cbn [maxConcurrentCalls minutesLimit routingStrategy].
  split; [| split].
  - unfold Js.or_num. destruct (max_concurrent_calls p) as [z |]; [| lia].
    destruct (Z.eqb_spec z 0); lia.
  - unfold Js.or_num. destruct (monthly_minute_limit p) as [z |]; [| lia].
    destruct (Z.eqb_spec z 0); lia.
  - unfold Js.or_str. destruct (routing_strategy p) as [v |]; [| discriminate].
    destruct (String.eqb_spec v ""); [discriminate | assumption].
Qed.

Lemma defaults_replace_zero_and_empty_witness :
  monthly_minute_limit Sample.bareTenant = Some 0
  ∧ match resolved (getClientConfigByPhoneNumber 0 Sample.bareDatabase ∅
                      "+15550100") with
    | Some c => minutesLimit c ≠ 0 ∧ minutesLimit c = 1000
    | None => False
    end.
Proof.
  split; [reflexivity |].
  destruct (resolved (getClientConfigByPhoneNumber 0 Sample.bareDatabase ∅
                        "+15550100")) as [c |] eqn:Hc; [| discriminate Hc].
  split.
  - exact (proj1 (proj2 (defaults_replace_zero_and_empty 0 Sample.bareDatabase
                           ∅ "+15550100" c (ex_intro _ [] eq_refl) Hc))).
  - vm_compute in Hc. injection Hc as <-. reflexivity.
Defined.

End ResolverExtras.

(** ** Further properties of the session router *)

Module RouterExtras.

Import Resolver Router.

(** *** The first webhook *)

(** X7: a tenant whose profile leaves the routing strategy unset is
    treated as [single_number_ivr], but no menu is ever attached to its
    configuration, so a call to one of its unbound numbers is never
    prompted for a digit: it is connected to the tenant's first agent, or
    turned away when there is none. *)
Theorem unset_strategy_never_prompts clock req st cfg p :
  reachable (clientConfigCache st) →
  resolved (getClientConfigByPhoneNumber (epoch_ms clock) (db st)
              (clientConfigCache st) (To req)) = Some cfg →
  profiles_of (phoneNumber cfg) = Some p →
  routing_strategy p = None →
  Js.truthy_str (phone_agent_id (phone_row (phoneNumber cfg))) = false →
  routingStrategy cfg = "single_number_ivr"
  ∧ ivrMenu cfg = None
  ∧ (webhook_voice clock req st).1
    = match agents cfg with
      | [] => Twiml [say "Sorry, the menu system is not configured properly."]
      | a :: _ => Twiml (connectTo (CallSid req) a)
      end.
Proof.
  intros Hreach Hres Hp Hnone Hunbound.
  assert (Hinv : ∀ q, profiles_of (phoneNumber cfg) = Some q →
                      routing_strategy q = None →
                      routingStrategy cfg = "single_number_ivr"
                      ∧ ivrMenu cfg = None).
  { refine (ResolverExtras.returned_inherits
              (fun c => ∀ q, profiles_of (phoneNumber c) = Some q →
                             routing_strategy q = None →
                             routingStrategy c = "single_number_ivr"
                             ∧ ivrMenu c = None)
              _ _ _ _ _ cfg Hreach Hres).
    clear. intros db n c qs. unfold fetchClientConfig.
    destruct (query_phone db n) as [pd |]; [| discriminate].
    destruct (profiles_of pd) as [p0 |] eqn:Hpd; [| discriminate].
    intros [= <- _] q. cbn [phoneNumber routingStrategy ivrMenu].
    rewrite Hpd. intros [= <-] Hq. rewrite Hq. simpl. auto. }
  destruct (Hinv p Hp Hnone) as [Hs Hm].
  split; [exact Hs | split; [exact Hm |]].
  unfold webhook_voice. rewrite Hres, Hunbound.
  unfold dispatchStrategy. rewrite Hs. cbn [String.eqb Ascii.eqb Bool.eqb].
  unfold handleIVRRouting. rewrite Hm. unfold connectDefault.
  destruct (agents cfg); reflexivity.
Qed.

Lemma unset_strategy_never_prompts_witness :
  ivr_menus Sample.bareDatabase = [Sample.menu]
  ∧ (webhook_voice (Sample.clockAt 0 1 9 0) (Sample.request "+15550100" None)
       (Sample.start Sample.bareDatabase)).1
    = Twiml (connectTo "CA1" Sample.A1).
Proof.
  split; [reflexivity |].
  destruct (resolved (getClientConfigByPhoneNumber 0 Sample.bareDatabase ∅
                        "+15550100")) as [cfg |] eqn:Hc; [| discriminate Hc].
  pose proof (unset_strategy_never_prompts (Sample.clockAt 0 1 9 0)
                (Sample.request "+15550100" None)
                (Sample.start Sample.bareDatabase) cfg Sample.bareTenant
                (ex_intro _ [] eq_refl) Hc) as H.
  vm_compute in Hc. injection Hc as <-.
  destruct H as (_ & _ & H); [reflexivity | reflexivity | reflexivity |].
  exact H.
Defined.

(** X8: a call to a number the resolver cannot resolve is answered with
    one apology, and no session is written to either store. *)
Theorem unresolved_number_is_turned_away clock req st :
  resolved (getClientConfigByPhoneNumber (epoch_ms clock) (db st)
              (clientConfigCache st) (To req)) = None →
  (webhook_voice clock req st).1
  = Twiml [say "Sorry, this number is not configured properly."]
  ∧ same_stores (webhook_voice clock req st).2 st.
Proof.
  intros Hres. unfold webhook_voice. rewrite Hres. cbn [fst snd].
  split; [reflexivity | split; reflexivity].
Qed.

Lemma unresolved_number_is_turned_away_witness :
  (webhook_voice (Sample.clockAt 0 1 9 0) (Sample.request "+15550100" None)
     (Sample.start Sample.duplicatedNumber)).1
  = Twiml [say "Sorry, this number is not configured properly."].
Proof.
  apply unresolved_number_is_turned_away. reflexivity.
Defined.

(** X9: a number bound to an agent that is not among the configuration's
    agents (an inactive or deleted one) is answered with an apology
    whatever the routing strategy; the call is not passed to the strategy
    or to another agent, and no session is written. *)
Theorem binding_to_missing_agent_is_terminal clock req st cfg :
  resolved (getClientConfigByPhoneNumber (epoch_ms clock) (db st)
              (clientConfigCache st) (To req)) = Some cfg →
  Js.truthy_str (phone_agent_id (phone_row (phoneNumber cfg))) = true →
  findAgent (phone_agent_id (phone_row (phoneNumber cfg))) (agents cfg) = None →
  (webhook_voice clock req st).1
  = Twiml [say "Sorry, the AI agent for this number is not available."]
  ∧ same_stores (webhook_voice clock req st).2 st.
Proof.
  intros Hres Hbound Hfind. unfold webhook_voice. rewrite Hres, Hbound.
  unfold directRoute. rewrite Hfind. cbn [fst snd].
  split; [reflexivity | split; reflexivity].
Qed.

Lemma binding_to_missing_agent_is_terminal_witness :
  (webhook_voice (Sample.clockAt 0 1 9 0) (Sample.request "+15550102" None)
     (Sample.start Sample.withRetired)).1
  = Twiml [say "Sorry, the AI agent for this number is not available."].
Proof.
  destruct (resolved (getClientConfigByPhoneNumber 0 Sample.withRetired ∅
                        "+15550102")) as [cfg |] eqn:Hc; [| discriminate Hc].
  pose proof (binding_to_missing_agent_is_terminal (Sample.clockAt 0 1 9 0)
                (Sample.request "+15550102" None)
                (Sample.start Sample.withRetired) cfg Hc) as H.
  vm_compute in Hc. injection Hc as <-.
  apply H; reflexivity.
Defined.

(** *** The session stores *)

(** X10: a session saved for a call that has no database row yet is what
    the next lookup of that call returns, whether the database accepted
    the row or did not; it is the call's entry of the in-memory map, and
    the map's entries for other calls are left as they were. *)
Theorem saved_session_is_found sid s st :
  call_sessions (db st) !! sid = None →
  lookupSession sid (saveSession sid s st) = Some s
  ∧ callSessionStore (saveSession sid s st) !! sid = Some s
  ∧ ∀ other, other ≠ sid →
             callSessionStore (saveSession sid s st) !! other
             = callSessionStore st !! other.
Proof.
  intros Hrow. split; [| split].
  - unfold lookupSession, getCallSession, saveSession, storeCallSession.
    cbn [db callSessionStore]. rewrite Hrow.
    destruct (db_available (db st)) eqn:Hup.
    + cbn [with_call_sessions db_available call_sessions]. rewrite Hup.
      rewrite lookup_insert_eq. reflexivity.
    + rewrite Hup. apply lookup_insert_eq.
  - apply lookup_insert_eq.
  - intros other Hne. cbn [saveSession callSessionStore].
    rewrite lookup_insert_ne by congruence. reflexivity.
Qed.

Lemma saved_session_is_found_witness :
  let st := Sample.start (Sample.database true) in
  let s := sessionFor Sample.config Sample.A1 (Sample.request "+15550100" None) 0 in
  lookupSession "CA1" (saveSession "CA1" s st) = Some s
  ∧ lookupSession "CA1" (saveSession "CA1" s Sample.memoryOnly) = Some s.
Proof.
  cbv zeta. split.
  - apply (saved_session_is_found "CA1" _ (Sample.start (Sample.database true))).
    reflexivity.
  - apply (saved_session_is_found "CA1" _ Sample.memoryOnly). reflexivity.
Defined.

(** X11: while the server process runs, the in-memory session map never
    loses a call: over any sequence of requests none of whose handlers
    raises, a call that has a session in the map keeps one.  No handler
    removes an entry. *)
Theorem memory_store_never_forgets ops : ∀ st k,
  Forall (fun r => ∀ e, r ≠ Unhandled e) (serveAll ops st).1 →
  is_Some (callSessionStore st !! k) →
  is_Some (callSessionStore (serveAll ops st).2 !! k).
Proof.
  induction ops as [| op rest IH]; intros st k Hrun Hk; [exact Hk |].
  revert Hrun. cbn [serveAll].
  pose proof (RouterFacts.serve_outcome op st) as Hout.
  destruct (serve op st) as [r st1].
  assert (H1 : is_Some (callSessionStore st1 !! k)).
  { inversion Hout as [? ? [_ Hm] _
                      | ? sid s st0 [_ Hm] _ _
                      | ? sid s a st0 [_ Hm] _ _ _
                      | ? sid s old st0 [_ Hm] _ _ _]; subst;
      try (rewrite Hm; exact Hk);
      cbn [saveSession callSessionStore]; rewrite Hm;
      (destruct (decide (sid = k)) as [-> | Hne];
       [rewrite lookup_insert_eq; eauto
       | rewrite lookup_insert_ne by exact Hne; exact Hk]). }
  specialize (IH st1 k).
  destruct (serveAll rest st1) as [rs st2]. cbn [fst snd] in *.
  intros Hrun. inversion Hrun; subst. apply IH; assumption.
Qed.

Lemma memory_store_never_forgets_witness :
  is_Some (callSessionStore
             (serveAll [Sample.wrongDigit;
                        IvrTimeout (Sample.request "+15550100" None)]
                (serve Sample.firstWebhook Sample.memoryOnly).2).2 !! "CA1").
Proof.
  apply memory_store_never_forgets.
  - vm_compute. repeat constructor; discriminate.
  - vm_compute. eauto.
Defined.

(** *** The IVR webhooks *)

(** X12: a digit or a timeout for a call that has no session in either
    store is answered with an apology and changes nothing. *)
Theorem unknown_call_is_turned_away req st :
  (lookupSession (Js.or_str (query_callSid req) (CallSid req)) st = None →
   webhook_ivr_selection req st
   = (Twiml [say "Sorry, there was an error processing your selection. Please call back."],
      st))
  ∧ ((∀ sid, query_callSid req = Some sid → lookupSession sid st = None) →
     webhook_ivr_timeout req st
     = (Twiml [say "Sorry, there was an error processing your call. Please call back."],
        st)).
Proof.
  split.
  - intros H. unfold webhook_ivr_selection. rewrite H. reflexivity.
  - intros H. unfold webhook_ivr_timeout.
    destruct (query_callSid req) as [sid |]; [| reflexivity].
    rewrite (H sid eq_refl). reflexivity.
Qed.

Lemma unknown_call_is_turned_away_witness :
  let st := Sample.start (Sample.database true) in
  (webhook_ivr_selection (Sample.request "+15550100" (Some "1")) st).2 = st
  ∧ (webhook_ivr_timeout (Sample.request "+15550100" None) st).2 = st.
Proof.
  cbv zeta.
  destruct (unknown_call_is_turned_away (Sample.request "+15550100" (Some "1"))
              (Sample.start (Sample.database true))) as [H1 _].
  destruct (unknown_call_is_turned_away (Sample.request "+15550100" None)
              (Sample.start (Sample.database true))) as [_ H2].
  split.
  - rewrite H1 by reflexivity. reflexivity.
  - rewrite H2; [reflexivity |]. intros sid [= <-]. reflexivity.
Defined.

(** X13: digits submitted for a call whose stored configuration has no
    menu (a call that was connected without one) make the handler raise a
    [TypeError] where it reads [ivrMenu.ivr_options]: the exception
    escapes the handler instead of a TwiML document being built. *)
Theorem digits_without_menu_raise req st cs :
  lookupSession (Js.or_str (query_callSid req) (CallSid req)) st = Some cs →
  ivrMenu (clientConfig cs) = None →
  (webhook_ivr_selection req st).1 = Unhandled Js.TypeError.
Proof.
  intros Hs Hm. unfold webhook_ivr_selection. rewrite Hs, Hm. reflexivity.
Qed.

Lemma digits_without_menu_raise_witness :
  let st := (webhook_voice (Sample.clockAt 0 1 9 0)
               (Sample.request "+15550100" None)
               (Sample.start Sample.bareDatabase)).2 in
  (webhook_ivr_selection (Sample.request "+15550100" (Some "1")) st).1
  = Unhandled Js.TypeError.
Proof.
  cbv zeta.
  set (st := (webhook_voice (Sample.clockAt 0 1 9 0)
                (Sample.request "+15550100" None)
                (Sample.start Sample.bareDatabase)).2).
  destruct (lookupSession "CA1" st) as [cs |] eqn:Hs; [| discriminate Hs].
  rewrite (digits_without_menu_raise (Sample.request "+15550100" (Some "1"))
             st cs Hs); [reflexivity |].
  vm_compute in Hs. injection Hs as <-. reflexivity.
Defined.

(** X14: pressing the digit of a transfer option dials the configured
    number, and pressing the digit of a voicemail option starts a
    recording of at most 300 seconds; in both cases no agent is selected
    and the stored session is left as it was, IVR context included. *)
Theorem transfer_and_voicemail_keep_session req st cs menu o :
  lookupSession (Js.or_str (query_callSid req) (CallSid req)) st = Some cs →
  ivrMenu (clientConfig cs) = Some menu →
  findOption (Digits req) (ivr_options menu) = Some o →
  (action_type o = "transfer" →
   ∀ number, action_phone_number o = Some number → number ≠ "" →
   webhook_ivr_selection req st
   = (Twiml [say "Transferring your call. Please hold."; Dial number], st))
  ∧ (action_type o = "voicemail" →
     webhook_ivr_selection req st
     = (Twiml [say "Please leave a message after the tone.";
               RecordCall "/webhook/voicemail" 300], st)).
Proof.
  intros Hs Hm Hf. unfold webhook_ivr_selection. rewrite Hs, Hm, Hf.
  unfold applyOption. split.
  - intros -> number Hn Hne. rewrite Hn. simpl.
    destruct (String.eqb_spec number ""); [contradiction | reflexivity].
  - intros ->. reflexivity.
Qed.

Lemma transfer_and_voicemail_keep_session_witness :
  webhook_ivr_selection (Sample.request "+15550100" (Some "3")) Sample.waiting
  = (Twiml [say "Transferring your call. Please hold."; Dial "+15557000"],
     Sample.waiting)
  ∧ (webhook_ivr_selection (Sample.request "+15550100" (Some "4"))
       Sample.waiting).2 = Sample.waiting.
Proof.
  split.
  - refine (proj1 (transfer_and_voicemail_keep_session
                     (Sample.request "+15550100" (Some "3")) Sample.waiting
                     Sample.waitingSession
                     {| menu_row := Sample.menu;
                        ivr_options := [Sample.option1; Sample.optionTransfer;
                                        Sample.optionVoicemail] |}
                     Sample.optionTransfer eq_refl eq_refl eq_refl)
                  eq_refl "+15557000" eq_refl _).
    discriminate.
  - rewrite (proj2 (transfer_and_voicemail_keep_session
                      (Sample.request "+15550100" (Some "4")) Sample.waiting
                      Sample.waitingSession
                      {| menu_row := Sample.menu;
                         ivr_options := [Sample.option1; Sample.optionTransfer;
                                         Sample.optionVoicemail] |}
                      Sample.optionVoicemail eq_refl eq_refl eq_refl)
                   eq_refl).
    reflexivity.
Defined.

(** *** Retries when the sessions live in memory *)

(** X15: with the database out of reach, so that sessions are read from
    the in-memory map, a caller whose session counts [a] attempts against
    a limit of [a + 1 + k] is prompted again on each of the next [k]
    invalid digits and is connected to the tenant's first agent on the
    one after; the session then has that agent selected and no IVR
    context. *)
Theorem retries_until_limit_in_memory k : ∀ st sid cs menu ctx first rest reqs,
  db_available (db st) = false →
  callSessionStore st !! sid = Some cs →
  ivrMenu (clientConfig cs) = Some menu →
  ivrContext cs = Some ctx →
  agents (clientConfig cs) = first :: rest →
  0 <= Js.or_num (attempts ctx) 0 →
  Js.or_num (attempts ctx) 0 + 1 + Z.of_nat k
  = Js.or_num (max_attempts (menu_row menu)) 3 →
  length reqs = S k →
  Forall (fun req => Js.or_str (query_callSid req) (CallSid req) = sid
                     ∧ findOption (Digits req) (ivr_options menu) = None)
         reqs →
  (serveAll (List.map IvrSelection reqs) st).1
  = (replicate k (retryReply sid menu) ++ [fallbackReply sid])%list
  ∧ ∃ s, callSessionStore (serveAll (List.map IvrSelection reqs) st).2 !! sid
         = Some s
         ∧ selectedAgent s = Some first ∧ ivrContext s = None.
Proof.
  induction k as [| k IH];
    intros st sid cs menu ctx first rest reqs Hdown Hmem Hmenu Hctx Hag Hpos Hlim
           Hlen Hall.
  - destruct reqs as [| req [| ? ?]]; try discriminate Hlen.
    inversion Hall as [| ? ? [Hsid Hnone] _]; subst.
    cbn [List.map serveAll serve replicate app].
    assert (Hlook : lookupSession (Js.or_str (query_callSid req) (CallSid req)) st
                    = Some cs).
    { unfold lookupSession, getCallSession. rewrite Hdown. exact Hmem. }
    unfold webhook_ivr_selection. rewrite Hlook, Hmenu, Hnone.
    unfold invalidSelection. rewrite Hctx.
    change (default {| menuId := None; attempts := None |} (Some ctx)) with ctx.
    destruct (Z.leb_spec (Js.or_num (max_attempts (menu_row menu)) 3)
                (Js.or_num (attempts ctx) 0 + 1)); [| lia].
    rewrite Hag. cbn [fst snd]. split; [reflexivity |].
    eexists. split; [apply RouterFacts.saveSession_memory |].
    split; reflexivity.
  - destruct reqs as [| req reqs]; [discriminate Hlen |].
    inversion Hall as [| ? ? [Hsid Hnone] Hrest]; subst.
    injection Hlen as Hlen.
    cbn [List.map serveAll serve].
    assert (Hlook : lookupSession (Js.or_str (query_callSid req) (CallSid req)) st
                    = Some cs).
    { unfold lookupSession, getCallSession. rewrite Hdown. exact Hmem. }
    unfold webhook_ivr_selection. rewrite Hlook, Hmenu, Hnone.
    unfold invalidSelection. rewrite Hctx.
    change (default {| menuId := None; attempts := None |} (Some ctx)) with ctx.
    destruct (Z.leb_spec (Js.or_num (max_attempts (menu_row menu)) 3)
                (Js.or_num (attempts ctx) 0 + 1)); [lia |].
    set (sid := Js.or_str (query_callSid req) (CallSid req)) in *.
    set (n := Js.or_num (attempts ctx) 0 + 1) in *.
    set (st1 := saveSession sid (withAttempts cs ctx n) st).
    assert (Hdown1 : db_available (db st1) = false).
    { unfold st1. rewrite RouterFacts.availability_survives_saveSession.
      exact Hdown. }
    assert (Hn : Js.or_num (Some n) 0 = n).
    { unfold Js.or_num. destruct (Z.eqb_spec n 0); [lia | reflexivity]. }
    specialize (IH st1 sid (withAttempts cs ctx n) menu
                  {| menuId := menuId ctx; attempts := Some n |} first rest reqs
                  Hdown1 (RouterFacts.saveSession_memory _ _ _) Hmenu eq_refl Hag).
    cbn [attempts] in IH. rewrite Hn in IH.
    specialize (IH ltac:(lia) ltac:(lia) Hlen Hrest).
    destruct (serveAll (List.map IvrSelection reqs) st1) as [rs st2].
    cbn [fst snd] in *. destruct IH as [Hrs Hs].
    split; [| exact Hs].
    rewrite Hrs. reflexivity.
Qed.

Lemma retries_until_limit_in_memory_witness :
  (serveAll [Sample.wrongDigit; Sample.wrongDigit; Sample.wrongDigit]
     (serve Sample.firstWebhook Sample.memoryOnly).2).1
  = [Sample.retry; Sample.retry; Sample.fallback].
Proof.
  set (st := (serve Sample.firstWebhook Sample.memoryOnly).2).
  destruct (callSessionStore st !! "CA1") as [cs |] eqn:Hcs; [| discriminate Hcs].
  pose proof (retries_until_limit_in_memory 2 st "CA1" cs
                {| menu_row := Sample.menu;
                   ivr_options := [Sample.option1; Sample.option2] |}
                {| menuId := Some "menu-1"; attempts := Some 0 |}
                Sample.A1 [Sample.A2]
                [Sample.request "+15550100" (Some "9");
                 Sample.request "+15550100" (Some "9");
                 Sample.request "+15550100" (Some "9")]
                eq_refl Hcs) as H.
  vm_compute in Hcs. injection Hcs as <-.
  specialize (H eq_refl eq_refl eq_refl).
  specialize (H ltac:(vm_compute; discriminate) eq_refl eq_refl).
  specialize (H ltac:(repeat constructor)).
  exact (proj1 H).
Defined.

(** *** What the webhooks write *)

Lemma storeCallSession_configuration sid s d :
  same_configuration (storeCallSession sid s d) d.
Proof.
  unfold storeCallSession, same_configuration.
  destruct (db_available d) eqn:Hup; [| tauto].
  destruct (call_sessions d !! sid); [tauto |].
  simpl. tauto.
Qed.

(** X18: no webhook writes tenant configuration or call logs: after any
    sequence of requests the database differs from the one before at most
    in its [call_sessions] table, and it is reachable exactly if it was. *)
Theorem webhooks_write_sessions_only ops : ∀ st,
  same_configuration (db (serveAll ops st).2) (db st).
Proof.
  induction ops as [| op rest IH]; intros st.
  - unfold same_configuration. tauto.
  - cbn [serveAll].
    pose proof (RouterFacts.serve_outcome op st) as Hout.
    destruct (serve op st) as [r st1].
    assert (H1 : same_configuration (db st1) (db st)).
    { inversion Hout as [? ? [Hd _] _
                        | ? sid s st0 [Hd _] _ _
                        | ? sid s a st0 [Hd _] _ _ _
                        | ? sid s old st0 [Hd _] _ _ _]; subst.
      - rewrite Hd. unfold same_configuration. tauto.
      - cbn [saveSession db]. rewrite Hd. apply storeCallSession_configuration.
      - cbn [saveSession db]. rewrite Hd. apply storeCallSession_configuration.
      - cbn [saveSession db]. rewrite Hd. apply storeCallSession_configuration. }
    specialize (IH st1).
    destruct (serveAll rest st1) as [rs st2]. cbn [snd] in *.
    unfold same_configuration in *.
    destruct IH as (? & ? & ? & ? & ? & ? & ? & ?).
    destruct H1 as (? & ? & ? & ? & ? & ? & ? & ?).
    repeat split; congruence.
Qed.

(** *** Entering the menu *)

(** X19: a new call to an unbound number of an IVR tenant that has a menu
    is prompted with the menu's greeting, with the menu's timeout or ten
    seconds, and is not connected; the session then found for the call
    has no selected agent and counts zero attempts. *)
Theorem menu_entry_starts_at_zero clock req st cfg menu :
  resolved (getClientConfigByPhoneNumber (epoch_ms clock) (db st)
              (clientConfigCache st) (To req)) = Some cfg →
  Js.truthy_str (phone_agent_id (phone_row (phoneNumber cfg))) = false →
  routingStrategy cfg = "single_number_ivr" →
  ivrMenu cfg = Some menu →
  call_sessions (db st) !! CallSid req = None →
  let sid := CallSid req in
  let st' := (webhook_voice clock req st).2 in
  (webhook_voice clock req st).1
  = Twiml [Gather (ivrSelectionUrl sid)
                  (Js.or_num (timeout_seconds (menu_row menu)) 10)
                  (greeting_text (menu_row menu));
           Redirect (ivrTimeoutUrl sid)]
  ∧ attemptsSeen sid st' = Some 0
  ∧ ∃ s, lookupSession sid st' = Some s ∧ selectedAgent s = None.
Proof.
  intros Hres Hunbound Hs Hm Hrow. cbv zeta.
  unfold webhook_voice. rewrite Hres, Hunbound.
  unfold dispatchStrategy. rewrite Hs. cbn [String.eqb Ascii.eqb Bool.eqb].
  unfold handleIVRRouting. rewrite Hm. cbn [fst snd].
  split; [reflexivity |].
  match goal with
  | |- context [saveSession ?sid ?s ?st1] =>
      assert (Hlook : lookupSession sid (saveSession sid s st1) = Some s)
  end.
  { unfold lookupSession, getCallSession, saveSession, storeCallSession.
    cbn [db callSessionStore]. rewrite Hrow.
    destruct (db_available (db st)) eqn:Hup.
    - cbn [with_call_sessions db_available call_sessions]. rewrite Hup.
      rewrite lookup_insert_eq. reflexivity.
    - rewrite Hup. apply lookup_insert_eq. }
  split.
  - unfold attemptsSeen. rewrite Hlook. reflexivity.
  - eexists. split; [exact Hlook | reflexivity].
Qed.

Lemma menu_entry_starts_at_zero_witness :
  attemptsSeen "CA1" (serve Sample.firstWebhook
                        (Sample.start (Sample.database true))).2 = Some 0.
Proof.
  refine (proj1 (proj2 (menu_entry_starts_at_zero (Sample.clockAt 1000 1 9 0)
                          (Sample.request "+15550100" None)
                          (Sample.start (Sample.database true)) Sample.config
                          {| menu_row := Sample.menu;
                             ivr_options := [Sample.option1; Sample.option2] |}
                          eq_refl eq_refl eq_refl eq_refl eq_refl))).
Defined.

(** *** Limits *)

Lemma reply_ignores_usage clock req cfg cfg' st1 st2 :
  routes_alike cfg' cfg →
  (routeResolved clock req cfg' st1).1 = (routeResolved clock req cfg st2).1.
Proof.
  intros (Hb & Hs & Ha & Hm & Hi & Hr). unfold routeResolved. rewrite Hb.
  destruct (Js.truthy_str _).
  - unfold directRoute. rewrite Hb, Ha, Hr.
    destruct (findAgent _ _); [| reflexivity].
    destruct (recordingEnabled cfg); reflexivity.
  - unfold dispatchStrategy. rewrite Hs.
    destruct (String.eqb (routingStrategy cfg) "single_number_ivr").
    { unfold handleIVRRouting, connectDefault. rewrite Hm, Ha.
      destruct (ivrMenu cfg); [reflexivity |].
      destruct (agents cfg); reflexivity. }
    destruct (String.eqb (routingStrategy cfg) "external_integration").
    { unfold handleExternalIntegration, connectDefault, connectAgent.
      rewrite Hi, Ha.
      destruct (externalIntegrations cfg) as [| i rest].
      - destruct (agents cfg); reflexivity.
      - repeat match goal with
               | |- context [if ?b then _ else _] => destruct b
               | |- context [match findAgent ?i ?l with _ => _ end] =>
                   destruct (findAgent i l)
               end; reflexivity. }
    destruct (String.eqb (routingStrategy cfg) "time_based").
    { rewrite !RouterFacts.time_based_routing_raises. reflexivity. }
    unfold connectDefault. rewrite Ha.
    destruct (agents cfg); reflexivity.
Qed.

(** X26: usage and limits play no part in routing: two calls whose
    resolved configurations agree on the number's binding, the strategy,
    the agents, the menu, the integrations and the recording flag receive
    the same reply, whatever their minutes used, monthly limit and
    concurrency limit; a tenant beyond its limits is routed like any
    other. *)
Theorem limits_are_not_enforced clock req st st' cfg cfg' :
  resolved (getClientConfigByPhoneNumber (epoch_ms clock) (db st)
              (clientConfigCache st) (To req)) = Some cfg →
  resolved (getClientConfigByPhoneNumber (epoch_ms clock) (db st')
              (clientConfigCache st') (To req)) = Some cfg' →
  routes_alike cfg' cfg →
  (webhook_voice clock req st').1 = (webhook_voice clock req st).1.
Proof.
  intros H H' Halike. unfold webhook_voice. rewrite H, H'.
  apply (reply_ignores_usage clock req cfg cfg' _ _ Halike).
Qed.

Lemma limits_are_not_enforced_witness :
  let clock := Sample.clockAt 0 1 9 0 in
  let req := Sample.request "+15550101" None in
  (minutes_used Sample.spentTenant, monthly_minute_limit Sample.spentTenant)
  = (Some 5000, Some 100)
  ∧ (webhook_voice clock req (Sample.start Sample.spentDatabase)).1
    = (webhook_voice clock req (Sample.start (Sample.database true))).1.
Proof.
  intros clock req. split; [reflexivity |].
  destruct (resolved (getClientConfigByPhoneNumber 0 (Sample.database true) ∅
                        "+15550101")) as [cfg |] eqn:Hc; [| discriminate Hc].
  destruct (resolved (getClientConfigByPhoneNumber 0 Sample.spentDatabase ∅
                        "+15550101")) as [cfg' |] eqn:Hc'; [| discriminate Hc'].
  apply (limits_are_not_enforced clock req (Sample.start (Sample.database true))
           (Sample.start Sample.spentDatabase) cfg cfg' Hc Hc').
  vm_compute in Hc, Hc'. injection Hc as <-. injection Hc' as <-.
  repeat split.
Defined.

End RouterExtras.

(** ** Further properties of the duplex relay *)

Module RelayExtras.

Import Relay.

Lemma append_assoc (a b c : string) : (a +:+ b) +:+ c = a +:+ (b +:+ c).
Proof.
  induction a as [| x a IH]; [reflexivity |].
  change (String x ((a +:+ b) +:+ c) = String x (a +:+ (b +:+ c))).
  f_equal. exact IH.
Qed.

Lemma append_empty (a : string) : a +:+ "" = a.
Proof.
  induction a as [| x a IH]; [reflexivity |].
  change (String x (a +:+ "") = String x a). f_equal. exact IH.
Qed.

Section Facts.

Variable toPcm : string → Js.Error + string.
Variable toMuLaw : string → Js.Error + string.

Abbreviation step := (Relay.step toPcm toMuLaw).
Abbreviation run := (Relay.run toPcm toMuLaw).

(** *** Transcript *)

Lemma captureText_extends parts : ∀ t,
  ∃ added, captureText t parts = t +:+ added.
Proof.
  induction parts as [| p rest IH]; intros t; simpl.
  - exists "". symmetry. apply append_empty.
  - destruct (Js.truthy_str (part_text p)); [| apply IH].
    destruct (IH (t +:+ "AI: " +:+ Js.or_str (part_text p) "" +:+ newline))
      as [added ->].
    eexists. apply append_assoc.
Qed.

Lemma step_extends s e :
  ∃ added, transcript (step s e).1 = transcript s +:+ added.
Proof.
  assert (Hsame : ∃ added, transcript s = transcript s +:+ added).
  { exists "". symmetry. apply append_empty. }
  destruct e as [now m | now | | | | | parts]; simpl; try exact Hsame.
  - unfold onMessage, handleTwilioMessage.
    destruct m as [| sid | payload | | name |]; simpl; try exact Hsame.
    destruct (Js.truthy_str payload); simpl; [| exact Hsame].
    destruct (toPcm _); simpl; destruct (_ || _); simpl;
      try exact Hsame; eexists; reflexivity.
  - apply captureText_extends.
Qed.

(** X20: the transcript of a call only grows: after any sequence of
    events on the two connections it is the transcript from before with
    text added at its end. *)
Theorem transcript_only_grows events : ∀ s,
  ∃ added, transcript (run s events).1 = transcript s +:+ added.
Proof.
  induction events as [| e rest IH]; intros s.
  - exists "". symmetry. apply append_empty.
  - simpl. destruct (step_extends s e) as [a1 H1].
    destruct (step s e) as [s1 fx1]. cbn [fst] in H1.
    destruct (IH s1) as [a2 H2].
    destruct (Relay.run toPcm toMuLaw s1 rest) as [s2 fx2]. cbn [fst] in *.
    exists (a1 +:+ a2). rewrite H2, H1. apply append_assoc.
Qed.

(** *** Audio from the speech endpoint *)

Lemma forwardAudio_frames sid parts :
  Forall (fun f => f.1 = sid) (mediaFrames (forwardAudio toMuLaw sid parts))
  ∧ (length (mediaFrames (forwardAudio toMuLaw sid parts))
     <= length (List.filter audioPart parts))%nat.
Proof.
  induction parts as [| p rest [IH1 IH2]]; simpl.
  - split; [constructor | lia].
  - fold (audioPart p). destruct (audioPart p).
    + destruct (toMuLaw _); simpl.
      * split; [constructor | lia].
      * split; [constructor; [reflexivity | exact IH1] | lia].
    + split; [exact IH1 | exact IH2].
Qed.

Lemma forwardAudio_all_converted sid parts :
  Forall (fun p => audioPart p = true → ∃ out, toMuLaw (payloadOf p) = inr out)
         parts →
  length (mediaFrames (forwardAudio toMuLaw sid parts))
  = length (List.filter audioPart parts).
Proof.
  induction parts as [| p rest IH]; intros Hall; [reflexivity |].
  inversion Hall as [| ? ? Hp Hrest]; subst. simpl.
  fold (audioPart p). destruct (audioPart p) eqn:Ha.
  - destruct (Hp eq_refl) as [out Hout]. unfold payloadOf in Hout.
    rewrite Hout. simpl. rewrite (IH Hrest). reflexivity.
  - apply IH. exact Hrest.
Qed.

(** X21: of the parts of a message from the speech endpoint, only audio
    parts become media frames on the telephony socket: there are never
    more frames than audio parts, exactly as many when every conversion
    succeeds, none for a message of text parts only, and every frame
    carries the stream identifier the socket holds at that moment. *)
Theorem only_audio_parts_become_frames s parts :
  let frames := mediaFrames (step s (GeminiServerContent (Some parts))).2 in
  Forall (fun f => f.1 = twilioStreamSid s) frames
  ∧ (length frames <= length (List.filter audioPart parts))%nat
  ∧ (Forall (fun p => audioPart p = true →
                      ∃ out, toMuLaw (payloadOf p) = inr out) parts →
     length frames = length (List.filter audioPart parts))
  ∧ (Forall (fun p => audioPart p = false) parts → frames = []).
Proof.
  cbv zeta. simpl.
  destruct (forwardAudio_frames (twilioStreamSid s) parts) as [H1 H2].
  split; [exact H1 | split; [exact H2 | split]].
  - apply forwardAudio_all_converted.
  - intros Hall.
    assert (Hnone : List.filter audioPart parts = []).
    { induction parts as [| p rest IH]; [reflexivity |].
      inversion Hall as [| ? ? Hp Hrest]; subst. simpl. rewrite Hp.
      apply IH; [| | exact Hrest].
      - destruct (forwardAudio_frames (twilioStreamSid s) rest). assumption.
      - destruct (forwardAudio_frames (twilioStreamSid s) rest). assumption. }
    rewrite Hnone in H2.
    destruct (mediaFrames _); [reflexivity | simpl in H2; lia].
Qed.

(** X22: the audio parts of one message are converted in order inside a
    single [try]: when the conversion of a part fails, the frames of the
    parts before it have been sent and no later part of the message is
    sent, convertible or not. *)
Theorem failed_conversion_drops_the_rest sid before p e after :
  Forall (fun q => audioPart q = true → ∃ out, toMuLaw (payloadOf q) = inr out)
         before →
  audioPart p = true →
  toMuLaw (payloadOf p) = inl e →
  mediaFrames (forwardAudio toMuLaw sid (before ++ p :: after))
  = mediaFrames (forwardAudio toMuLaw sid before).
Proof.
  intros Hall Hp He.
  induction before as [| q rest IH]; simpl.
  - fold (audioPart p). rewrite Hp. unfold payloadOf in He. rewrite He.
    reflexivity.
  - inversion Hall as [| ? ? Hq Hrest]; subst.
    fold (audioPart q). destruct (audioPart q) eqn:Ha.
    + destruct (Hq eq_refl) as [out Hout]. unfold payloadOf in Hout.
      rewrite Hout. simpl. rewrite (IH Hrest). reflexivity.
    + apply IH. exact Hrest.
Qed.

(** *** The call record sink *)

Lemma step_clientInfo s e : clientInfo (step s e).1 = clientInfo s.
Proof.
  destruct e as [now m | now | | | | | parts]; simpl; try reflexivity.
  unfold onMessage, handleTwilioMessage.
  destruct m as [| sid | payload | | name |]; simpl; try reflexivity.
  destruct (Js.truthy_str payload); simpl; [| reflexivity].
  destruct (toPcm _); simpl; destruct (_ || _); reflexivity.
Qed.

Lemma step_usage s e :
  usageIncrements (step s e).2
  = match e, callLogId s, clientInfo s with
    | TwilioClose t, Some _, Some c =>
        [(clientId c, Js.ceil_div (durationSeconds s t) 60)]
    | _, _, _ => []
    end.
Proof.
  destruct e as [now m | now | | | | | parts]; simpl; try reflexivity.
  - apply (RelayFacts.onMessage_effects toPcm s now m).
  - destruct (callLogId s); [| reflexivity].
    destruct (clientInfo s); reflexivity.
  - apply (RelayFacts.forwardAudio_sink toMuLaw).
Qed.

Lemma step_sink s e :
  finalizations (step s e).2
  = match e, callLogId s with
    | TwilioClose t, Some id =>
        [(id, {| upd_status := "completed"; upd_ended_at := t;
                 upd_duration_seconds := durationSeconds s t;
                 upd_transcript := transcript s |})]
    | _, _ => []
    end.
Proof.
  destruct e as [now m | now | | | | | parts];
    try (apply (RelayFacts.step_finalizations toPcm toMuLaw); reflexivity).
  apply (RelayFacts.close_finalizations toPcm toMuLaw).
Qed.

Lemma usageIncrements_app a b :
  usageIncrements (a ++ b) = (usageIncrements a ++ usageIncrements b)%list.
Proof. unfold usageIncrements. apply omap_app. Qed.

(** X23: a call without a call record writes nothing to the sink: if the
    socket carries no call log id (no session was found for the call, the
    session had no selected agent, or the log could not be created), no
    sequence of events produces a finalizing update or a usage
    increment. *)
Theorem no_record_no_sink_calls events : ∀ s,
  callLogId s = None →
  finalizations (run s events).2 = [] ∧ usageIncrements (run s events).2 = [].
Proof.
  induction events as [| e rest IH]; intros s Hnone; [split; reflexivity |].
  simpl.
  pose proof (step_sink s e) as Hf. pose proof (step_usage s e) as Hu.
  pose proof (RelayFacts.step_callLogId toPcm toMuLaw s e) as Hid.
  rewrite Hnone in Hf, Hu, Hid.
  destruct (step s e) as [s1 fx1]. cbn [fst snd] in *.
  destruct (IH s1 Hid) as [IHf IHu].
  destruct (Relay.run toPcm toMuLaw s1 rest) as [s2 fx2]. cbn [snd] in *.
  rewrite RelayFacts.finalizations_app, usageIncrements_app, IHf, IHu.
  split.
  - rewrite Hf. destruct e; reflexivity.
  - rewrite Hu. destruct e; reflexivity.
Qed.

(** X24: a call whose socket was set up by the connection handler is
    billed exactly as often as it is finalized: over any sequence of
    events the sink receives as many usage increments as finalizing
    updates, each increment for the tenant attached at connection. *)
Theorem finalized_calls_are_billed now callSid st events :
  let s := (onConnection now callSid st).1 in
  length (usageIncrements (run s events).2)
  = length (finalizations (run s events).2)
  ∧ Forall (fun u => Some u.1 = clientId <$> clientInfo s)
           (usageIncrements (run s events).2).
Proof.
  cbv zeta.
  assert (Hinv : ∀ id, callLogId (onConnection now callSid st).1 = Some id →
                       is_Some (clientInfo (onConnection now callSid st).1)).
  { intros id Hid.
    destruct (RelayFacts.call_record_implies_profile now callSid st id Hid)
      as (a & c & _ & Hc).
    rewrite Hc. eauto. }
  revert Hinv. generalize (onConnection now callSid st).1. clear.
  intros s Hinv.
  assert (Hgen : ∀ s0, callLogId s0 = callLogId s → clientInfo s0 = clientInfo s →
                       length (usageIncrements (run s0 events).2)
                       = length (finalizations (run s0 events).2)
                       ∧ Forall (fun u => Some u.1 = clientId <$> clientInfo s)
                                (usageIncrements (run s0 events).2)).
  { induction events as [| e rest IH]; intros s0 Hid Hci.
    - split; [reflexivity | constructor].
    - simpl.
      pose proof (step_sink s0 e) as Hf. pose proof (step_usage s0 e) as Hu.
      pose proof (RelayFacts.step_callLogId toPcm toMuLaw s0 e) as Hid1.
      pose proof (step_clientInfo s0 e) as Hci1.
      destruct (step s0 e) as [s1 fx1]. cbn [fst snd] in *.
      destruct (IH s1 ltac:(congruence) ltac:(congruence)) as [IHl IHa].
      destruct (Relay.run toPcm toMuLaw s1 rest) as [s2 fx2]. cbn [snd] in *.
      rewrite RelayFacts.finalizations_app, usageIncrements_app.
      rewrite !length_app, IHl, Hf, Hu. rewrite Hid, Hci.
      destruct (callLogId s) as [id |] eqn:Hlog.
      + destruct (Hinv id eq_refl) as [c Hc]. rewrite Hc in IHa |- *.
        split.
        * destruct e; reflexivity.
        * apply Forall_app. split; [| exact IHa].
          destruct e; repeat constructor.
      + split.
        * destruct e; reflexivity.
        * apply Forall_app. split; [| exact IHa].
          destruct e; constructor. }
  apply Hgen; reflexivity.
Qed.

(** X25: billing by duration at the edges: a call with a record and a
    profile that lasts less than half a second is reported with zero
    minutes, and one that lasts from half a second up to, but not
    including, 60.5 seconds with one minute. *)
Theorem short_calls_round s id c endTime :
  callLogId s = Some id →
  clientInfo s = Some c →
  let elapsed := endTime - callStartTime s in
  (0 <= elapsed < 500 →
   usageIncrements (step s (TwilioClose endTime)).2 = [(clientId c, 0)])
  ∧ (500 <= elapsed < 60500 →
     usageIncrements (step s (TwilioClose endTime)).2 = [(clientId c, 1)]).
Proof.
  intros Hid Hc. cbv zeta. rewrite step_usage, Hid, Hc.
  unfold durationSeconds.
  pose proof (RelayFacts.round_div_spec (endTime - callStartTime s) 1000
                ltac:(lia)) as Hr.
  pose proof (RelayFacts.ceil_div_spec
                (Js.round_div (endTime - callStartTime s) 1000) 60
                ltac:(lia)) as Hcd.
  split; intros Hrange.
  - assert (Js.ceil_div (Js.round_div (endTime - callStartTime s) 1000) 60 = 0)
      as -> by lia.
    reflexivity.
  - assert (Js.ceil_div (Js.round_div (endTime - callStartTime s) 1000) 60 = 1)
      as -> by lia.
    reflexivity.
Qed.

End Facts.

Lemma failed_conversion_drops_the_rest_witness :
  let convert := fun payload : string =>
                   if String.eqb payload "bad" then inl Js.TypeError
                   else inr payload in
  let audio := fun payload =>
                 {| inline_mimeType := Some "audio/pcm"; inline_data := Some payload;
                    part_text := None |} in
  mediaFrames (forwardAudio convert (Some "MZ1")
                 [audio "one"; audio "bad"; audio "three"])
  = [(Some "MZ1", "one")].
Proof.
  intros convert audio. etransitivity.
  - apply (failed_conversion_drops_the_rest convert (Some "MZ1") [audio "one"]
             (audio "bad") Js.TypeError [audio "three"]).
    + repeat constructor. intros _. exists "one". reflexivity.
    + reflexivity.
    + reflexivity.
  - reflexivity.
Defined.

Lemma only_audio_parts_become_frames_witness :
  let s := {| agentInfo := None; clientInfo := None; callSession := None;
              geminiReady := true; twilioStreamSid := Some "MZ1";
              callStartTime := 0; transcript := ""; callLogId := None;
              lastUserSpeech := None |} in
  let text := {| inline_mimeType := None; inline_data := None;
                 part_text := Some "Hello" |} in
  let audio := {| inline_mimeType := Some "audio/pcm"; inline_data := Some "AAAA";
                  part_text := None |} in
  mediaFrames (Relay.step inr inr s (GeminiServerContent (Some [text; text]))).2
  = []
  ∧ length (mediaFrames
              (Relay.step inr inr s
                 (GeminiServerContent (Some [text; audio; audio]))).2) = 2%nat.
Proof.
  intros s text audio. split.
  - apply (proj2 (proj2 (proj2 (only_audio_parts_become_frames inr inr s
                                  [text; text])))).
    repeat constructor.
  - rewrite (proj1 (proj2 (proj2 (only_audio_parts_become_frames inr inr s
                                    [text; audio; audio])))).
    + reflexivity.
    + repeat constructor; intros _; eexists; reflexivity.
Defined.

Lemma no_record_no_sink_calls_witness :
  let s := (onConnection 0 "CA9" (Sample.start (Sample.database true))).1 in
  finalizations (Relay.run inr inr s [GeminiReady; TwilioClose 61000]).2 = [].
Proof.
  cbv zeta.
  apply (no_record_no_sink_calls inr inr [GeminiReady; TwilioClose 61000]).
  reflexivity.
Defined.

Lemma short_calls_round_witness :
  let s := {| agentInfo := Some Sample.A1; clientInfo := Some Sample.config;
              callSession := None; geminiReady := true;
              twilioStreamSid := Some "CA1"; callStartTime := 1000;
              transcript := ""; callLogId := Some 0;
              lastUserSpeech := None |} in
  usageIncrements (Relay.step inr inr s (TwilioClose 1499)).2 = [("tenant-1", 0)]
  ∧ usageIncrements (Relay.step inr inr s (TwilioClose 1500)).2 = [("tenant-1", 1)].
Proof.
  intros s. split.
  - apply (proj1 (short_calls_round inr inr s 0 Sample.config 1499
                    eq_refl eq_refl)).
    simpl. lia.
  - apply (proj2 (short_calls_round inr inr s 0 Sample.config 1500
                    eq_refl eq_refl)).
    simpl. lia.
Defined.

End RelayExtras.

(** ** The usage counter and the resolver *)

Module SinkExtras.

Import Resolver Router Sink.

Lemma find_map_profile (f : Profile → Profile) pid ps :
  (∀ p, profile_id (f p) = profile_id p) →
  List.find (fun p => String.eqb (profile_id p) pid) (List.map f ps)
  = f <$> List.find (fun p => String.eqb (profile_id p) pid) ps.
Proof.
  intros Hid. induction ps as [| p rest IH]; [reflexivity |].
  simpl. rewrite Hid.
  destruct (String.eqb (profile_id p) pid); [reflexivity | exact IH].
Qed.

Lemma bump_keeps_id pid minutes p :
  profile_id (if String.eqb (profile_id p) pid then add_minutes minutes p else p)
  = profile_id p.
Proof. destruct (String.eqb (profile_id p) pid); reflexivity. Qed.

(** X27: minutes reported for a tenant reach the next configuration that
    is compiled from the source of truth: after [incrementMinutesUsed]
    for the tenant of a resolved number, a request that the cache does
    not answer resolves the number to a configuration that routes alike
    and whose minutes used are the stored figure plus the reported
    minutes; a stored [NULL] stays [NULL] and reads as zero. *)
Theorem usage_reaches_next_compilation now d cache n cfg minutes now' cache' :
  fresh now cache n = false →
  resolved (getClientConfigByPhoneNumber now d cache n) = Some cfg →
  fresh now' cache' n = false →
  let d' := (incrementMinutesUsed (clientId cfg) minutes d).2 in
  ∃ cfg',
    resolved (getClientConfigByPhoneNumber now' d' cache' n) = Some cfg'
    ∧ routes_alike cfg' cfg
    ∧ minutesUsed cfg'
      = match profiles_of (phoneNumber cfg) ≫= minutes_used with
        | Some m => m + minutes
        | None => 0
        end.
Proof.
  intros Hmiss Hres Hmiss'. cbv zeta.
  destruct (ResolverExtras.miss_goes_to_source now d cache n Hmiss)
    as (c0 & Heq & _ & _).
  destruct (ResolverExtras.miss_goes_to_source now'
              (incrementMinutesUsed (clientId cfg) minutes d).2 cache' n Hmiss')
    as (c1 & Heq' & _ & _).
  rewrite Heq in Hres. rewrite Heq'. clear Heq Heq' Hmiss Hmiss'.
  unfold resolveFromSource in *.
  destruct (fetchClientConfig d n) as [[c |] qs] eqn:Hf; simpl in Hres;
    [| discriminate].
  injection Hres as ->. revert Hf. unfold fetchClientConfig, query_phone.
  destruct (db_available d) eqn:Hup; [| discriminate].
  destruct (single _) as [r |] eqn:Hrow; [| discriminate].
  cbn [profiles_of].
  destruct (match phone_profile_id r with
            | Some pid => List.find (fun p => String.eqb (profile_id p) pid)
                                    (profiles d)
            | None => None
            end) as [p |] eqn:Hp; [| discriminate].
  intros [= <-]. cbn [clientId phoneNumber profiles_of mbind option_bind].
  unfold incrementMinutesUsed. rewrite Hup.
  cbn [snd with_profiles db_available phone_numbers profiles ai_agents
       ivr_menus ivr_option_rows external_integrations].
  rewrite Hrow. cbn [profiles_of].
  assert (Hp' : match phone_profile_id r with
                | Some pid =>
                    List.find (fun p => String.eqb (profile_id p) pid)
                      (increment_minutes_used (profile_id p) minutes (profiles d))
                | None => None
                end = Some (add_minutes minutes p)).
  { destruct (phone_profile_id r) as [pid |]; [| discriminate].
    unfold increment_minutes_used.
    rewrite find_map_profile by (intros q; apply bump_keeps_id).
    rewrite Hp. simpl. rewrite String.eqb_refl. reflexivity. }
  rewrite Hp', ?Hup. eexists. split; [reflexivity |].
  split.
  - unfold routes_alike. simpl. repeat split.
  - simpl. destruct (minutes_used p) as [m |]; simpl; [| reflexivity].
    destruct (Z.eqb_spec (m + minutes) 0); lia.
Qed.

Lemma usage_reaches_next_compilation_witness :
  let d' := (incrementMinutesUsed "tenant-1" 2 Sample.spentDatabase).2 in
  (minutesUsed <$> resolved (getClientConfigByPhoneNumber 0 d' ∅ "+15550100"))
  = Some 5002.
Proof.
  cbv zeta.
  destruct (resolved (getClientConfigByPhoneNumber 0 Sample.spentDatabase ∅
                        "+15550100")) as [cfg |] eqn:Hc; [| discriminate Hc].
  pose proof (usage_reaches_next_compilation 0 Sample.spentDatabase ∅
                "+15550100" cfg 2 0 ∅ eq_refl Hc eq_refl) as H.
  vm_compute in Hc. injection Hc as <-.
  destruct H as (cfg' & Hr & _ & Hm).
  change (clientId _) with "tenant-1" in Hr.
  rewrite Hr. simpl. rewrite Hm. reflexivity.
Defined.

End SinkExtras.
